(** * Reservation calendar: slot/time arithmetic and availability windows

    A shallow embedding of the arithmetic of the reservation front end
    (the [ReservationCalendar] component in its two versions and the
    reservation list of [ReservationManagement]) together with the
    properties of the specification that concern it.

    Conventions of the embedding.
    - A JavaScript number that the code uses as a slot index, a seat count
      or an hour is an integer [Z].  Where an operation would leave the
      integers ([Number] of a string that is not a run of decimal digits, a
      quotient [minutes / 15] that is not whole, a destructured element
      that is [undefined]) the embedding answers [None].  The code computes
      in binary64, which is exact on integers below 2^53: a statement about
      numbers that are not bounded by the data carries such a bound.
    - A JavaScript object used as a dictionary is a [gmap] with string
      keys; the object of the batch response, whose key order decides which
      neighbouring date is picked, is an association list.
    - [fetch] is an oracle: the responses of the backend are inputs. *)

From Stdlib Require Import ZArith List Ascii String Decimal DecimalString Lia.
From Stdlib Require DecimalPos DecimalZ.
From stdpp Require Import base option list gmap strings.

Local Open Scope string_scope.
Local Open Scope Z_scope.

(** ** The JavaScript primitives the code relies on *)

Module JS.

(** [n.toString()] for an integer [n]. *)
Definition toString (n : Z) : string :=
  NilZero.string_of_int (Z.to_int n).

(** [s.padStart(targetLength, pad)] for a one-character [pad]. *)
Definition padStart (targetLength : nat) (pad : ascii) (s : string) : string :=
  String.append
    (string_of_list_ascii (repeat pad (targetLength - String.length s)))
    s.

(** [s.split(sep)] for a one-character separator. *)
Fixpoint split (sep : ascii) (s : string) : list string :=
  match s with
  | EmptyString => [EmptyString]
  | String c rest =>
      if Ascii.eqb c sep then EmptyString :: split sep rest
      else match split sep rest with
           | [] => [String c EmptyString]
           | w :: ws => String c w :: ws
           end
  end.

(** [Number(s)] on the fragment of strings made of decimal digits only
    (the empty string converts to 0, leading zeros are ignored); every
    other string is outside the integer model. *)
Definition Number (s : string) : option Z :=
  match s with
  | EmptyString => Some 0
  | _ => match NilEmpty.uint_of_string s with
         | Some u => Some (Z.of_uint u)
         | None => None
         end
  end.

(** [a || b] on numbers: [a] unless it is falsy, that is 0. *)
Definition orElse (a b : Z) : Z := if a =? 0 then b else a.

End JS.

(** ** Time labels and slot indices *)

(** The template literal
    [`${h.toString().padStart(2,'0')}:${m.toString().padStart(2,'0')}`]. *)
Definition timeString (displayHour minute : Z) : string :=
  String.append (JS.padStart 2 "0" (JS.toString displayHour))
    (String.append ":" (JS.padStart 2 "0" (JS.toString minute))).

(** The inner loop of [generateTimeSlots]: [minute] runs over the values
    left to visit; [break] abandons them. *)
Fixpoint generateTimeSlots_minutes (hour : Z) (minutes : list Z) : list string :=
  match minutes with
  | [] => []
  | minute :: rest =>
      if (hour =? 27) && (45 <? minute) then []
      else
        let displayHour := if 24 <=? hour then hour - 24 else hour in
        timeString displayHour minute :: generateTimeSlots_minutes hour rest
  end.

(** [generateTimeSlots]: [hour] from 18 to 27, [minute] in steps of 15
    below 60. *)
Definition generateTimeSlots : list string :=
  flat_map (fun hour =>
              generateTimeSlots_minutes hour ((fun k => 15 * k) <$> seqZ 0 4))
           (seqZ 18 10).

(** [convertTimeToSlot]: [time.split(':').map(Number)], destructured into
    [hours] and [minutes]. *)
Definition convertTimeToSlot (time : string) : option Z :=
  match JS.Number <$> JS.split ":" time with
  | Some hours :: Some minutes :: _ =>
      let adjustedHours := if hours <? 18 then hours + 24 else hours in
      if minutes mod 15 =? 0
      then Some ((adjustedHours - 18) * 4 + minutes / 15)
      else None
  | _ => None
  end.

(** The start time shown for a reservation in [ReservationManagement]:
    the inverse conversion, from the stored [timeSlot] to a label. *)
Module ReservationManagement.

Definition timeString (reservation_timeSlot : Z) : string :=
  let timeSlot := JS.orElse reservation_timeSlot 0 in
  let startHour := timeSlot / 4 + 18 in
  let startMin := Z.rem timeSlot 4 * 15 in
  let displayHour := if 24 <=? startHour then startHour - 24 else startHour in
  timeString displayHour startMin.

End ReservationManagement.

(** ** The availability window *)

(** An element of the backend's [availableSlots] array. *)
Module SlotData.
Record t : Type := mk { slot : Z; availableSeats : Z; maxCapacity : Z }.
End SlotData.

Definition maxSlot : Z := 39.

(** The slots a reservation starting at [startSlot] occupies, in the order
    in which the code pushes them. *)
Definition occupiedSlots (startSlot : Z) : list Z :=
  if startSlot <=? 27 then
    flat_map (fun i => let slot := startSlot + i in
                       if slot <=? maxSlot then [slot] else [])
             (seqZ 0 12)
  else
    seqZ startSlot (maxSlot + 1 - startSlot).

(** [availableSlots.find(s => s.slot === slot)]. *)
Definition findSlot (availableSlots : list SlotData.t) (slot : Z)
  : option SlotData.t :=
  List.find (fun s => SlotData.slot s =? slot) availableSlots.

(** The loop over the occupied slots, with its early [return 0]. *)
Fixpoint minOverSlots (availableSlots : list SlotData.t)
    (occupied : list Z) (minAvailableSeats : Z) : Z :=
  match occupied with
  | [] => minAvailableSeats
  | slot :: rest =>
      match findSlot availableSlots slot with
      | Some slotData =>
          minOverSlots availableSlots rest
            (Z.min minAvailableSeats (SlotData.availableSeats slotData))
      | None => 0
      end
  end.

Definition calculateMaxBookableSeats (startSlot : Z)
    (availableSlots : list SlotData.t) : Z :=
  minOverSlots availableSlots (occupiedSlots startSlot) 6.

(** ** Availability data and the schedule *)

(** A value of [availabilityData[date][time]]. *)
Module SlotStatus.
Record t : Type := mk { available : bool; availableSeats : Z; maxCapacity : Z }.
End SlotStatus.

(** A cell of the calendar: the optional fields are [undefined] when the
    availability data has nothing for the cell. *)
Module TimeSlot.
Record t : Type :=
  mk { time : string; available : bool;
       availableSeats : option Z; maxCapacity : option Z }.
End TimeSlot.

Module DaySchedule.
Record t : Type := mk { date : string; slots : list TimeSlot.t }.
End DaySchedule.

(** The body of an availability response for one date; [availableSlots] is
    [None] when the field is absent or falsy. *)
Module DayData.
Record t : Type := mk { availableSlots : option (list SlotData.t) }.
End DayData.

(** What the backend answers.  A request that rejects, or whose body makes
    the code that reads it throw, is a failure: both end in the same
    [catch].  The [availability] object of the batch body keeps its keys
    in order; a key may hold [null]. *)
Inductive DayResponse : Type :=
| DayFailure
| DayBody (data : DayData.t).

Inductive BatchResponse : Type :=
| BatchFailure
| BatchBody (availability : option (list (string * option DayData.t))).

Module Backend.
Record t : Type := mk { batch : BatchResponse; day : string -> DayResponse }.
End Backend.

Abbreviation AvailabilityData := (gmap string (gmap string SlotStatus.t)).

(** The entry written for the slot at [index] in the version of the
    calendar that books a three-hour window. *)
Definition windowEntry (index : Z) (availableSlots : list SlotData.t)
  : SlotStatus.t :=
  let maxAvailableFor3Hours := calculateMaxBookableSeats index availableSlots in
  SlotStatus.mk (0 <? maxAvailableFor3Hours) maxAvailableFor3Hours 6.

(** The entry written in the other version of the calendar, which looks at
    the slot alone. *)
Definition listedEntry (index : Z) (availableSlots : list SlotData.t)
  : SlotStatus.t :=
  match findSlot availableSlots index with
  | Some slotData =>
      SlotStatus.mk true (SlotData.availableSeats slotData)
                    (SlotData.maxCapacity slotData)
  | None => SlotStatus.mk false 0 6
  end.

Definition unavailableEntry : SlotStatus.t := SlotStatus.mk false 0 6.

(** A string is truthy unless it is empty. *)
Definition truthy (s : option string) : bool :=
  match s with
  | Some (String _ _) => true
  | _ => false
  end.

Section Calendar.

(** The host's [Date]: the dates [generateDateRange] lists
    (2025-06-20 to 2025-07-04 as the host's clock renders them) and the
    ISO date one day before and after a date.  They depend on the host's
    time zone and nothing below depends on their values. *)
Variable generateDateRange : list string.
Variables dayBefore dayAfter : string -> string.

(** The entry written for a slot of a date that has data: [windowEntry]
    or [listedEntry], the only place where the two versions differ. *)
Variable slotEntry : Z -> list SlotData.t -> SlotStatus.t.

(** [timeSlots.forEach((timeString, index) => row[timeString] = ...)]
    on a fresh row. *)
Definition fillRow (entry : Z -> SlotStatus.t) (timeSlots : list string)
  : gmap string SlotStatus.t :=
  foldl (fun row it => <[ it.2 := entry (Z.of_nat it.1) ]> row) ∅
        (imap pair timeSlots).

(** The row the [forEach] fills for a date that has slots, and the row
    it fills after a failed request. *)
Definition rowOf (availableSlots : list SlotData.t)
  : gmap string SlotStatus.t :=
  fillRow (fun index => slotEntry index availableSlots) generateTimeSlots.

Definition unavailableRow : gmap string SlotStatus.t :=
  fillRow (fun _ => unavailableEntry) generateTimeSlots.

(** The key of the batch object taken for [expectedDate]: the date
    itself, else the first key one day off. *)
Definition matchingApiDate (apiDateKeys : list string) (expectedDate : string)
  : option string :=
  let exact := List.find (String.eqb expectedDate) apiDateKeys in
  if truthy exact then exact
  else List.find (fun apiDate =>
                    String.eqb apiDate (dayBefore expectedDate)
                    || String.eqb apiDate (dayAfter expectedDate))
                 apiDateKeys.

(** [data.availability[key]]. *)
Definition batchLookup (availability : list (string * option DayData.t))
    (key : string) : option DayData.t :=
  match List.find (fun kv => String.eqb kv.1 key) availability with
  | Some kv => kv.2
  | None => None
  end.

(** [dayData && dayData.availableSlots] for [expectedDate]: the slots
    of the matching key of the batch object, if it has any. *)
Definition batchSlots (availability : list (string * option DayData.t))
    (expectedDate : string) : option (list SlotData.t) :=
  let matching := matchingApiDate availability.*1 expectedDate in
  let dayData :=
    if truthy matching
    then batchLookup availability (default "" matching)
    else None in
  dayData ≫= DayData.availableSlots.

(** The [dates.forEach] of the batch branch; [None] when it throws. *)
Fixpoint batchDates (availability : list (string * option DayData.t))
    (dates : list string) (availabilityData : AvailabilityData)
  : option AvailabilityData :=
  match dates with
  | [] => Some availabilityData
  | expectedDate :: rest =>
      match batchSlots availability expectedDate with
      | Some availableSlots =>
          batchDates availability rest
            (<[ expectedDate := rowOf availableSlots ]> availabilityData)
      | None => None
      end
  end.

(** The inner [try]: the data of the batch endpoint, or [None] when the
    code falls through to the individual requests. *)
Definition batchAttempt (net : Backend.t) (dates : list string)
  : option AvailabilityData :=
  match Backend.batch net with
  | BatchBody (Some availability) =>
      if (0 <? length availability)%nat
      then batchDates availability dates ∅
      else None
  | _ => None
  end.

(** The loop of individual requests. *)
Fixpoint fallbackDates (net : Backend.t) (dates : list string)
    (availabilityData : AvailabilityData) : AvailabilityData :=
  match dates with
  | [] => availabilityData
  | date :: rest =>
      fallbackDates net rest
        match Backend.day net date with
        | DayBody data =>
            match DayData.availableSlots data with
            | Some availableSlots =>
                <[ date := rowOf availableSlots ]> availabilityData
            | None => availabilityData
            end
        | DayFailure => <[ date := unavailableRow ]> availabilityData
        end
  end.

(** What one turn of that loop leaves for the date it visits, given what
    was there before. *)
Definition fallbackRow (net : Backend.t) (date : string)
    (before : option (gmap string SlotStatus.t))
  : option (gmap string SlotStatus.t) :=
  match Backend.day net date with
  | DayBody data =>
      match DayData.availableSlots data with
      | Some availableSlots => Some (rowOf availableSlots)
      | None => before
      end
  | DayFailure => Some unavailableRow
  end.

(** The body of the outer [try] of [fetchAvailability]; [None] would be
    an exception that escapes it.  Every request sits in an inner [try],
    so in the embedding the body always returns. *)
Definition fetchAvailabilityTry (net : Backend.t) : option AvailabilityData :=
  let dates := generateDateRange in
  match batchAttempt net dates with
  | Some availabilityData => Some availabilityData
  | None => Some (fallbackDates net dates ∅)
  end.

(** [fetchAvailability]: the outer [catch] returns the empty object. *)
Definition fetchAvailabilityWith (net : Backend.t) : AvailabilityData :=
  match fetchAvailabilityTry net with
  | Some availabilityData => availabilityData
  | None => ∅
  end.

(** The schedule [initializeSchedule] and [refreshSchedule] build from
    the availability data. *)
Definition scheduleCell (availabilityData : AvailabilityData)
    (date time : string) : TimeSlot.t :=
  let slotData := availabilityData !! date ≫= (.!! time) in
  TimeSlot.mk time
    (negb (bool_decide (SlotStatus.available <$> slotData = Some false)))
    (SlotStatus.availableSeats <$> slotData)
    (SlotStatus.maxCapacity <$> slotData).

Definition scheduleData (availabilityData : AvailabilityData)
  : list DaySchedule.t :=
  (fun date =>
     DaySchedule.mk date
       (scheduleCell availabilityData date <$> generateTimeSlots))
  <$> generateDateRange.

Definition initializeScheduleWith (net : Backend.t) : list DaySchedule.t :=
  scheduleData (fetchAvailabilityWith net).

Definition refreshScheduleWith (net : Backend.t) : list DaySchedule.t :=
  scheduleData (fetchAvailabilityWith net).

(** The cells [timeSlots.map((timeString, index) => ...)] builds from
    the entry of each slot. *)
Definition cellsOf (entry : Z -> SlotStatus.t) : list TimeSlot.t :=
  imap (fun index timeString =>
          TimeSlot.mk timeString
            (SlotStatus.available (entry (Z.of_nat index)))
            (Some (SlotStatus.availableSeats (entry (Z.of_nat index))))
            (Some (SlotStatus.maxCapacity (entry (Z.of_nat index)))))
       generateTimeSlots.

(** [refreshSingleDate]: the slots of [targetDate] are replaced when
    the backend answers with slots, the schedule is left alone when the
    answer has none, and a failure falls back to [refreshSchedule]. *)
Definition refreshSingleDateWith (net : Backend.t)
    (prevSchedule : list DaySchedule.t) (targetDate : string)
  : list DaySchedule.t :=
  match Backend.day net targetDate with
  | DayBody data =>
      match DayData.availableSlots data with
      | Some availableSlots =>
          let updatedSlots :=
            cellsOf (fun index => slotEntry index availableSlots) in
          (fun day =>
             if String.eqb (DaySchedule.date day) targetDate
             then DaySchedule.mk (DaySchedule.date day) updatedSlots
             else day) <$> prevSchedule
      | None => prevSchedule
      end
  | DayFailure => refreshScheduleWith net
  end.

(** The values the [schedule] state can take: empty at first, then
    whatever the three functions above store, for any answers of the
    backend. *)
Inductive scheduleReachable : list DaySchedule.t -> Prop :=
| reach_empty : scheduleReachable []
| reach_initialize net : scheduleReachable (initializeScheduleWith net)
| reach_refresh net : scheduleReachable (refreshScheduleWith net)
| reach_single net prevSchedule targetDate :
    scheduleReachable prevSchedule ->
    scheduleReachable (refreshSingleDateWith net prevSchedule targetDate).

(** The slot list the row of [date] is computed from on the path
    [fetchAvailability] takes: the batch object's when the batch branch
    returns, the individual answer's otherwise; [None] when that answer
    failed or has no slots. *)
Definition fetchedSlots (net : Backend.t) (date : string)
  : option (list SlotData.t) :=
  match batchAttempt net generateDateRange with
  | Some _ =>
      match Backend.batch net with
      | BatchBody (Some availability) => batchSlots availability date
      | _ => None
      end
  | None =>
      match Backend.day net date with
      | DayBody data => DayData.availableSlots data
      | DayFailure => None
      end
  end.

End Calendar.

(** The calendar that books a three-hour window. *)
Definition fetchAvailability (generateDateRange : list string)
    (dayBefore dayAfter : string -> string) : Backend.t -> AvailabilityData :=
  fetchAvailabilityWith generateDateRange dayBefore dayAfter windowEntry.

Definition initializeSchedule (generateDateRange : list string)
    (dayBefore dayAfter : string -> string) : Backend.t -> list DaySchedule.t :=
  initializeScheduleWith generateDateRange dayBefore dayAfter windowEntry.

Definition refreshSchedule (generateDateRange : list string)
    (dayBefore dayAfter : string -> string) : Backend.t -> list DaySchedule.t :=
  refreshScheduleWith generateDateRange dayBefore dayAfter windowEntry.

(** The calendar that looks at each slot alone. *)
Module PerSlot.

Definition fetchAvailability (generateDateRange : list string)
    (dayBefore dayAfter : string -> string) : Backend.t -> AvailabilityData :=
  fetchAvailabilityWith generateDateRange dayBefore dayAfter listedEntry.

Definition initializeSchedule (generateDateRange : list string)
    (dayBefore dayAfter : string -> string) : Backend.t -> list DaySchedule.t :=
  initializeScheduleWith generateDateRange dayBefore dayAfter listedEntry.

Definition refreshSchedule (generateDateRange : list string)
    (dayBefore dayAfter : string -> string) : Backend.t -> list DaySchedule.t :=
  refreshScheduleWith generateDateRange dayBefore dayAfter listedEntry.

End PerSlot.

(** ** Choosing a cell and submitting the reservation *)

Module ReservationData.
Record t : Type :=
  mk { date : option string; time : option string; guests : option Z;
       name : option string; phone : option string }.
Definition empty : t := mk None None None None None.
End ReservationData.

(** The body of the reservation creation request. *)
Module RequestData.
Record t : Type :=
  mk { date : string; timeSlot : option Z; partySize : option Z;
       name : option string; phone : option string }.
End RequestData.

(** The state of the component that the two handlers touch. *)
Module State.
Record t : Type :=
  mk { schedule : list DaySchedule.t;
       selectedSlot : option (string * string);
       showReservationForm : bool;
       reservationData : ReservationData.t }.
End State.

Definition handleSlotClick (st : State.t) (date time : string) (available : bool)
  : State.t :=
  if available then
    State.mk (State.schedule st) (Some (date, time)) true
             (ReservationData.mk (Some date) (Some time) (Some 1) None None)
  else st.

(** A click on the button of row [slotIndex] in the column of day
    [dayIndex] of the grid. *)
Definition clickCell (st : State.t) (dayIndex slotIndex : nat) : State.t :=
  match State.schedule st !! dayIndex with
  | Some day =>
      match DaySchedule.slots day !! slotIndex with
      | Some slot =>
          handleSlotClick st (DaySchedule.date day) (TimeSlot.time slot)
                          (TimeSlot.available slot)
      | None => st
      end
  | None => st
  end.

(** The [requestData] that [handleReservationSubmit] posts; [None] when no
    slot is selected and the handler returns at once. *)
Definition handleReservationSubmit (st : State.t) : option RequestData.t :=
  match State.selectedSlot st with
  | None => None
  | Some (date, time) =>
      let timeSlot := convertTimeToSlot time in
      Some (RequestData.mk date timeSlot
              (ReservationData.guests (State.reservationData st))
              (ReservationData.name (State.reservationData st))
              (ReservationData.phone (State.reservationData st)))
  end.

(** ** The reservation form and the life of the component *)

(** [parseInt(s)] on the fragment of non-empty runs of decimal digits;
    every other string is outside the integer model. *)
Definition parseInt (s : string) : option Z :=
  match s with
  | EmptyString => None
  | _ => match NilEmpty.uint_of_string s with
         | Some u => Some (Z.of_uint u)
         | None => None
         end
  end.

(** The party sizes the [select] offers; the value of an option is the
    number printed. *)
Definition guestOptions : list Z := [1; 2; 3; 4; 5; 6].

(** The [onChange] handlers of the three fields:
    [setReservationData({...reservationData, field: ...})]. *)
Definition setName (st : State.t) (value : string) : State.t :=
  let r := State.reservationData st in
  State.mk (State.schedule st) (State.selectedSlot st)
           (State.showReservationForm st)
           (ReservationData.mk (ReservationData.date r) (ReservationData.time r)
                               (ReservationData.guests r) (Some value)
                               (ReservationData.phone r)).

Definition setPhone (st : State.t) (value : string) : State.t :=
  let r := State.reservationData st in
  State.mk (State.schedule st) (State.selectedSlot st)
           (State.showReservationForm st)
           (ReservationData.mk (ReservationData.date r) (ReservationData.time r)
                               (ReservationData.guests r)
                               (ReservationData.name r) (Some value)).

Definition setGuests (st : State.t) (value : string) : State.t :=
  let r := State.reservationData st in
  State.mk (State.schedule st) (State.selectedSlot st)
           (State.showReservationForm st)
           (ReservationData.mk (ReservationData.date r) (ReservationData.time r)
                               (parseInt value) (ReservationData.name r)
                               (ReservationData.phone r)).

(** The cancel button of the form. *)
Definition cancelForm (st : State.t) : State.t :=
  State.mk (State.schedule st) None false (State.reservationData st).

Definition initialState : State.t :=
  State.mk [] None false ReservationData.empty.

Section Component.

Variable generateDateRange : list string.
Variables dayBefore dayAfter : string -> string.
Variable slotEntry : Z -> list SlotData.t -> SlotStatus.t.

(** What [handleReservationSubmit] leaves once the backend has answered
    the request: on [response.ok] the form is closed, the selection
    dropped and the date of the reservation refreshed (with the answers
    [net] of the backend); otherwise, and when the request throws, an
    alert is shown and nothing changes. *)
Definition afterSubmit (net : Backend.t) (ok : bool) (st : State.t) : State.t :=
  match State.selectedSlot st with
  | None => st
  | Some (date, _) =>
      if ok then
        State.mk (refreshSingleDateWith generateDateRange dayBefore dayAfter
                                        slotEntry net (State.schedule st) date)
                 None false (State.reservationData st)
      else st
  end.

(** One event in the life of the component.  The fields and buttons of
    the form exist only while [showReservationForm] holds. *)
Inductive step : State.t -> State.t -> Prop :=
| step_initialize net st :
    step st (State.mk (initializeScheduleWith generateDateRange dayBefore
                                              dayAfter slotEntry net)
                      (State.selectedSlot st) (State.showReservationForm st)
                      (State.reservationData st))
| step_refresh net st :
    step st (State.mk (refreshScheduleWith generateDateRange dayBefore
                                           dayAfter slotEntry net)
                      (State.selectedSlot st) (State.showReservationForm st)
                      (State.reservationData st))
| step_click st dayIndex slotIndex :
    step st (clickCell st dayIndex slotIndex)
| step_name st value :
    State.showReservationForm st = true -> step st (setName st value)
| step_phone st value :
    State.showReservationForm st = true -> step st (setPhone st value)
| step_guests st num :
    State.showReservationForm st = true -> num ∈ guestOptions ->
    step st (setGuests st (JS.toString num))
| step_cancel st :
    State.showReservationForm st = true -> step st (cancelForm st)
| step_submit net ok st :
    State.showReservationForm st = true -> step st (afterSubmit net ok st).

(** The states the component can be in. *)
Definition reachableState (st : State.t) : Prop := rtc step initialState st.

(** What holds of every state of the component: the schedule is a
    reachable one; while a slot is selected the form is shown, the
    selection is a date of the range and a label of the calendar, and
    the party size is one of the options; otherwise the form is hidden. *)
Definition stateInvariant (st : State.t) : Prop :=
  scheduleReachable generateDateRange dayBefore dayAfter slotEntry
                    (State.schedule st)
  /\ match State.selectedSlot st with
     | Some (date, time) =>
         State.showReservationForm st = true
         /\ date ∈ generateDateRange
         /\ time ∈ generateTimeSlots
         /\ exists guests,
             ReservationData.guests (State.reservationData st) = Some guests
             /\ guests ∈ guestOptions
     | None => State.showReservationForm st = false
     end.

End Component.

(** The seat count the code reads for a slot: that of the first element
    of [availableSlots] carrying the slot, if there is one. *)
Definition seatsAt (availableSlots : list SlotData.t) (slot : Z) : option Z :=
  SlotData.availableSeats <$> findSlot availableSlots slot.

(** ** The day view of the specification *)

(** Exactly 40 entries, one per slot in time order, each with a seat count,
    [maxCapacity] 6 and [available = (availableSeats > 0)]. *)
Definition specDayView (slots : list TimeSlot.t) : Prop :=
  length slots = 40%nat
  /\ TimeSlot.time <$> slots = generateTimeSlots
  /\ forall slot, slot ∈ slots ->
       exists seats, TimeSlot.availableSeats slot = Some seats
                     /\ TimeSlot.maxCapacity slot = Some 6
                     /\ TimeSlot.available slot = bool_decide (0 < seats).

(** ** Sample inputs *)

(** A day on which every slot is listed, with 6 seats left everywhere but
    at slot 11, which has 2. *)
Definition sampleSlots : list SlotData.t :=
  (fun i => SlotData.mk i (if i =? 11 then 2 else 6) 6) <$> seqZ 0 40.

(** The same day with slot 35 not listed. *)
Definition sampleSlotsWithout35 : list SlotData.t :=
  List.filter (fun s => negb (SlotData.slot s =? 35)) sampleSlots.

(** A day on which the backend reports 9 seats for every slot. *)
Definition sampleSlotsOver : list SlotData.t :=
  (fun i => SlotData.mk i 9 9) <$> seqZ 0 40.

(** The dates of the displayed range and their neighbours. *)
Definition sampleDates : list string :=
  ["2025-06-20"; "2025-06-21"; "2025-06-22"; "2025-06-23"; "2025-06-24";
   "2025-06-25"; "2025-06-26"; "2025-06-27"; "2025-06-28"; "2025-06-29";
   "2025-06-30"; "2025-07-01"; "2025-07-02"; "2025-07-03"; "2025-07-04"].

Fixpoint nextIn (days : list string) (d : string) : string :=
  match days with
  | x :: (y :: _) as rest => if String.eqb x d then y else nextIn rest d
  | _ => d
  end.

Definition sampleDayAfter : string -> string :=
  nextIn (sampleDates ++ ["2025-07-05"]).

Definition sampleDayBefore : string -> string :=
  nextIn (rev ("2025-06-19" :: sampleDates)).

(** Every request fails. *)
Definition netDown : Backend.t :=
  Backend.mk BatchFailure (fun _ => DayFailure).

(** The batch request fails and every individual answer parses but has no
    [availableSlots]. *)
Definition netNoSlots : Backend.t :=
  Backend.mk BatchFailure (fun _ => DayBody (DayData.mk None)).

(** The batch request fails and every individual answer lists slot 0
    alone, with no seat left out of 6. *)
Definition netListed : Backend.t :=
  Backend.mk BatchFailure
    (fun _ => DayBody (DayData.mk (Some [SlotData.mk 0 0 6]))).

(** The batch request answers for every date with [sampleSlots]. *)
Definition netBatch : Backend.t :=
  Backend.mk
    (BatchBody
       (Some ((fun d => (d, Some (DayData.mk (Some sampleSlots))))
                <$> sampleDates)))
    (fun _ => DayFailure).


(** The day view of 2025-06-20 computed from [sampleSlots] by the window
    rule, and from slot 0 alone (no seat left) by the per-slot rule. *)
Definition sampleDay : DaySchedule.t :=
  DaySchedule.mk "2025-06-20"
                 (cellsOf (fun index => windowEntry index sampleSlots)).

Definition sampleDayListed : DaySchedule.t :=
  DaySchedule.mk "2025-06-20"
                 (cellsOf (fun index => listedEntry index [SlotData.mk 0 0 6])).

(** The component just after the first load, with the answers of
    [netBatch] and of [netListed]. *)
Definition sampleState : State.t :=
  State.mk (initializeSchedule sampleDates sampleDayBefore sampleDayAfter
                               netBatch)
           None false ReservationData.empty.

Definition sampleStateListed : State.t :=
  State.mk (initializeSchedule sampleDates sampleDayBefore sampleDayAfter
                               netListed)
           None false ReservationData.empty.

(** The day view of 2025-06-20 computed by the window rule from slot 0
    alone: no window is complete. *)
Definition sampleDayClosed : DaySchedule.t :=
  DaySchedule.mk "2025-06-20"
                 (cellsOf (fun index => windowEntry index [SlotData.mk 0 0 6])).

(** * Properties *)

(** ** The occupied slots *)

Lemma occupiedSlots_seqZ (startSlot : Z) :
  0 <= startSlot <= 39 ->
  occupiedSlots startSlot = seqZ startSlot (Z.min 12 (40 - startSlot)).
Proof.
  intros Hrange. unfold occupiedSlots, maxSlot.
  destruct (Z.leb_spec startSlot 27) as [Hle|Hgt].
  - rewrite Z.min_l by lia.
    change (seqZ 0 12) with [0;1;2;3;4;5;6;7;8;9;10;11].
    cbn [flat_map app].
    repeat match goal with
           | |- context [?a <=? 39] =>
               destruct (Z.leb_spec a 39); [|lia]
           end.
    unfold seqZ. change (Z.to_nat 12) with 12%nat. simpl.
    repeat (apply (f_equal2 cons); [lia|]). reflexivity.
  - rewrite Z.min_r by lia. f_equal; lia.
Qed.

Lemma elem_of_occupiedSlots (startSlot slot : Z) :
  0 <= startSlot <= 39 ->
  slot ∈ occupiedSlots startSlot <->
  startSlot <= slot /\ slot <= 39 /\ slot <= startSlot + 11.
Proof.
  intros Hrange. rewrite occupiedSlots_seqZ by done.
  rewrite elem_of_seqZ. lia.
Qed.

(** ** Looking a slot up *)

Lemma findSlot_None (availableSlots : list SlotData.t) (slot : Z) :
  findSlot availableSlots slot = None <->
  forall e, e ∈ availableSlots -> SlotData.slot e <> slot.
Proof.
  unfold findSlot. induction availableSlots as [|e l IH]; cbn.
  - split; [intros _ e He; inversion He | done].
  - destruct (Z.eqb_spec (SlotData.slot e) slot) as [Heq|Hne].
    + split; [done|]. intros H. destruct (H e); [left | done].
    + rewrite IH. split.
      * intros H e' He'. apply elem_of_cons in He' as [->|He']; auto.
      * intros H e' He'. apply H. by right.
Qed.

Lemma findSlot_Some (availableSlots : list SlotData.t) (slot : Z) e :
  findSlot availableSlots slot = Some e ->
  e ∈ availableSlots /\ SlotData.slot e = slot.
Proof.
  unfold findSlot. intros H. apply find_some in H as [Hin Heq].
  split; [by apply list_elem_of_In | lia].
Qed.

Lemma findSlot_unique (l : list SlotData.t) (slot : Z) (e : SlotData.t) :
  NoDup (SlotData.slot <$> l) ->
  e ∈ l -> SlotData.slot e = slot -> findSlot l slot = Some e.
Proof.
  unfold findSlot. induction l as [|x l IH]; intros Hnd Hin Hslot.
  - inversion Hin.
  - cbn in Hnd. apply NoDup_cons in Hnd as [Hfresh Hnd]. cbn.
    destruct (Z.eqb_spec (SlotData.slot x) slot) as [Heq|Hne].
    + apply elem_of_cons in Hin as [->|Hin]; [done|].
      destruct Hfresh. rewrite Heq, <- Hslot.
      apply list_elem_of_fmap. by exists e.
    + apply elem_of_cons in Hin as [->|Hin]; [done|]. by apply IH.
Qed.

(** ** The running minimum *)

Lemma minOverSlots_missing availableSlots occupied (m : Z) :
  (exists slot, slot ∈ occupied /\ findSlot availableSlots slot = None) ->
  minOverSlots availableSlots occupied m = 0.
Proof.
  revert m. induction occupied as [|s rest IH]; intros m [slot [Hin Hnone]].
  - inversion Hin.
  - cbn. destruct (findSlot availableSlots s) as [e|] eqn:Hs; [|done].
    apply IH. exists slot. split; [|done].
    apply elem_of_cons in Hin as [->|Hin]; [congruence | done].
Qed.

Lemma minOverSlots_le_or_zero availableSlots occupied (m : Z) :
  minOverSlots availableSlots occupied m <= m \/
  minOverSlots availableSlots occupied m = 0.
Proof.
  revert m. induction occupied as [|s rest IH]; intros m; cbn; [lia|].
  destruct (findSlot availableSlots s) as [e|]; [|by right].
  destruct (IH (Z.min m (SlotData.availableSeats e))); lia.
Qed.

Lemma minOverSlots_le availableSlots occupied (m : Z) :
  0 <= m -> minOverSlots availableSlots occupied m <= m.
Proof.
  intros Hm. destruct (minOverSlots_le_or_zero availableSlots occupied m); lia.
Qed.

Lemma minOverSlots_glb availableSlots occupied (m : Z) :
  (forall slot, slot ∈ occupied -> is_Some (seatsAt availableSlots slot)) ->
  let r := minOverSlots availableSlots occupied m in
  r <= m /\
  (forall slot seats, slot ∈ occupied ->
                      seatsAt availableSlots slot = Some seats -> r <= seats) /\
  (r = m \/ exists slot, slot ∈ occupied /\ seatsAt availableSlots slot = Some r).
Proof.
  revert m. induction occupied as [|s rest IH]; intros m Hall; cbn.
  - split; [lia|]. split; [|by left]. intros slot seats Hin. inversion Hin.
  - destruct (Hall s) as [v Hv]; [left|].
    unfold seatsAt in Hv.
    destruct (findSlot availableSlots s) as [e|] eqn:Hs; [|done].
    cbn in Hv. injection Hv as Hv.
    destruct (IH (Z.min m (SlotData.availableSeats e))) as (Hle & Hlb & Hatt).
    { intros slot Hin. apply Hall. by right. }
    split; [lia|]. split.
    + intros slot seats Hin Hseats.
      apply elem_of_cons in Hin as [->|Hin]; [|by eapply Hlb].
      unfold seatsAt in Hseats. rewrite Hs in Hseats. cbn in Hseats.
      injection Hseats as <-. lia.
    + destruct Hatt as [Heq|(slot & Hin & Hseats)].
      * destruct (Z.min_spec m (SlotData.availableSeats e)) as [[_ Hm]|[_ Hm]].
        -- left. congruence.
        -- right. exists s. split; [left|].
           unfold seatsAt. rewrite Hs. cbn. f_equal. congruence.
      * right. exists slot. split; [by right | done].
Qed.

(** ** The claims on [calculateMaxBookableSeats] *)

(** C3. For a start slot in [0,39] the occupied slots are, when
    [startSlot <= 27], the 12 consecutive slots from [startSlot] to
    [startSlot + 11] clipped at 39 (nothing is clipped away, so there are
    12 of them), and otherwise the slots from [startSlot] to 39; for 30
    they are 30..39, ten slots, and for 39 the slot 39 alone. *)
Theorem occupiedSlots_spec (startSlot : Z) :
  0 <= startSlot <= 39 ->
  (startSlot <= 27 ->
   occupiedSlots startSlot
   = List.filter (fun slot => slot <=? 39) (seqZ startSlot 12)
   /\ occupiedSlots startSlot = seqZ startSlot 12
   /\ length (occupiedSlots startSlot) = 12%nat)
  /\ (27 < startSlot ->
      occupiedSlots startSlot = seqZ startSlot (39 - startSlot + 1))
  /\ occupiedSlots 30 = [30; 31; 32; 33; 34; 35; 36; 37; 38; 39]
  /\ length (occupiedSlots 30) = 10%nat
  /\ occupiedSlots 39 = [39].
Proof.
  intros Hrange. split; [|split; [|by vm_compute]].
  - intros Hle.
    assert (Hocc : occupiedSlots startSlot = seqZ startSlot 12).
    { rewrite occupiedSlots_seqZ by done. f_equal; lia. }
    split; [|split; [done|]].
    + rewrite Hocc. symmetry. apply forallb_filter_id.
      apply forallb_forall. intros slot Hin.
      apply list_elem_of_In, elem_of_seqZ in Hin. apply Z.leb_le. lia.
    + rewrite Hocc. by rewrite length_seqZ.
  - intros Hgt. rewrite occupiedSlots_seqZ by done. f_equal; lia.
Qed.

Lemma occupiedSlots_spec_witness :
  0 <= 30 <= 39 /\
  occupiedSlots 30 = seqZ 30 (39 - 30 + 1).
Proof.
  split; [lia|].
  apply (occupiedSlots_spec 30); lia.
Defined.

(** C1. For a start slot in [0,39], take a list that holds an element for
    every occupied slot and in which every element of an occupied slot has a
    seat count in [0,6].  The result is the minimum of the seat counts of
    the occupied slots: it is the count of an element of the list that
    carries an occupied slot; for each occupied slot it is at most the
    count of an element carrying that slot; and when no slot is listed
    twice it is at most the count of every element that carries an
    occupied slot.  In particular, for start slot 0, when the elements of
    slot 11 have 2 seats and those of the slots 0..11 have 2 or more, the
    result is 2. *)
Theorem calculateMaxBookableSeats_min (startSlot : Z)
    (availableSlots : list SlotData.t) :
  0 <= startSlot <= 39 ->
  (forall slot, slot ∈ occupiedSlots startSlot ->
                exists e, e ∈ availableSlots /\ SlotData.slot e = slot) ->
  (forall e, e ∈ availableSlots ->
             SlotData.slot e ∈ occupiedSlots startSlot ->
             0 <= SlotData.availableSeats e <= 6) ->
  let result := calculateMaxBookableSeats startSlot availableSlots in
  (exists e, e ∈ availableSlots
             /\ SlotData.slot e ∈ occupiedSlots startSlot
             /\ result = SlotData.availableSeats e)
  /\ (forall slot, slot ∈ occupiedSlots startSlot ->
                   exists e, e ∈ availableSlots
                             /\ SlotData.slot e = slot
                             /\ result <= SlotData.availableSeats e)
  /\ (NoDup (SlotData.slot <$> availableSlots) ->
      forall e, e ∈ availableSlots ->
                SlotData.slot e ∈ occupiedSlots startSlot ->
                result <= SlotData.availableSeats e)
  /\ (startSlot = 0 ->
      (forall e, e ∈ availableSlots -> SlotData.slot e = 11 ->
                 SlotData.availableSeats e = 2) ->
      (forall e, e ∈ availableSlots -> 0 <= SlotData.slot e <= 11 ->
                 2 <= SlotData.availableSeats e) ->
      result = 2).
Proof.
  intros Hrange Hpresent Hvalues result.
  assert (Hfound : forall slot, slot ∈ occupiedSlots startSlot ->
             exists e, findSlot availableSlots slot = Some e
                       /\ e ∈ availableSlots /\ SlotData.slot e = slot).
  { intros slot Hin.
    destruct (findSlot availableSlots slot) as [e|] eqn:Hs.
    - exists e. split; [done|]. by apply findSlot_Some.
    - destruct (Hpresent slot Hin) as (e & He & Hslot).
      rewrite findSlot_None in Hs. by destruct (Hs e He). }
  destruct (minOverSlots_glb availableSlots (occupiedSlots startSlot) 6)
    as (Hcap & Hlb & Hatt).
  { intros slot Hin. destruct (Hfound slot Hin) as (e & He & _).
    unfold seatsAt. rewrite He. by eexists. }
  fold (calculateMaxBookableSeats startSlot availableSlots) in Hcap, Hlb, Hatt.
  fold result in Hcap, Hlb, Hatt.
  assert (Hbelow : forall slot, slot ∈ occupiedSlots startSlot ->
             exists e, e ∈ availableSlots /\ SlotData.slot e = slot
                       /\ result <= SlotData.availableSeats e).
  { intros slot Hin. destruct (Hfound slot Hin) as (e & He & Hel & Hslot).
    exists e. split; [done|]. split; [done|].
    apply (Hlb slot); [done|]. unfold seatsAt. by rewrite He. }
  assert (Hattained : exists e, e ∈ availableSlots
                                /\ SlotData.slot e ∈ occupiedSlots startSlot
                                /\ result = SlotData.availableSeats e).
  { destruct Hatt as [Hsix|(slot & Hin & Hseats)].
    - assert (Hstart : startSlot ∈ occupiedSlots startSlot)
        by (apply elem_of_occupiedSlots; lia).
      destruct (Hbelow startSlot Hstart) as (e & Hel & Hslot & Hle).
      exists e. split; [done|]. split; [by rewrite Hslot|].
      specialize (Hvalues e Hel). rewrite Hslot in Hvalues.
      specialize (Hvalues Hstart). lia.
    - destruct (Hfound slot Hin) as (e & He & Hel & Hslot).
      exists e. split; [done|]. split; [by rewrite Hslot|].
      unfold seatsAt in Hseats. rewrite He in Hseats. cbn in Hseats.
      by injection Hseats as ->. }
  split; [done|]. split; [done|]. split.
  - intros Hnd e Hel Hin. apply (Hlb (SlotData.slot e)); [done|].
    unfold seatsAt. by rewrite (findSlot_unique _ _ e Hnd Hel eq_refl).
  - intros -> Heleven Hothers.
    destruct Hattained as (e & Hel & Hslot & ->).
    apply elem_of_occupiedSlots in Hslot; [|lia].
    specialize (Hothers e Hel ltac:(lia)).
    destruct (Hbelow 11) as (e' & Hel' & Hslot' & Hle);
      [apply elem_of_occupiedSlots; lia|].
    specialize (Heleven e' Hel' Hslot'). lia.
Qed.

Lemma elem_of_sampleSlots (e : SlotData.t) :
  e ∈ sampleSlots <->
  exists i, 0 <= i < 40 /\ e = SlotData.mk i (if i =? 11 then 2 else 6) 6.
Proof.
  unfold sampleSlots. rewrite list_elem_of_fmap. split.
  - intros (i & -> & Hi). apply elem_of_seqZ in Hi. exists i. split; [lia|done].
  - intros (i & Hi & ->). exists i. split; [done|]. apply elem_of_seqZ. lia.
Qed.

Lemma sampleSlots_listed (slot : Z) :
  0 <= slot <= 39 ->
  seatsAt sampleSlots slot = Some (if slot =? 11 then 2 else 6).
Proof.
  intros Hslot.
  assert (Hnat : slot = Z.of_nat (Z.to_nat slot)) by lia.
  assert (Hlt : (Z.to_nat slot < 40)%nat) by lia.
  revert Hnat Hlt. generalize (Z.to_nat slot). intros n -> Hlt.
  do 40 (destruct n as [|n]; [by vm_compute|]). lia.
Qed.

Lemma calculateMaxBookableSeats_min_witness :
  0 <= 0 <= 39
  /\ calculateMaxBookableSeats 0 sampleSlots = 2
  /\ calculateMaxBookableSeats 12 sampleSlots = 6.
Proof.
  assert (Hpresent : forall startSlot, 0 <= startSlot <= 39 ->
            forall slot, slot ∈ occupiedSlots startSlot ->
                         exists e, e ∈ sampleSlots /\ SlotData.slot e = slot).
  { intros startSlot Hstart slot Hin.
    apply elem_of_occupiedSlots in Hin; [|done].
    exists (SlotData.mk slot (if slot =? 11 then 2 else 6) 6).
    split; [|done]. apply elem_of_sampleSlots. exists slot. split; [lia|done]. }
  assert (Hvalues : forall startSlot e,
            e ∈ sampleSlots -> SlotData.slot e ∈ occupiedSlots startSlot ->
            0 <= SlotData.availableSeats e <= 6).
  { intros startSlot e (i & Hi & ->)%elem_of_sampleSlots _. cbn.
    destruct (i =? 11); lia. }
  split; [lia|]. split.
  - apply (calculateMaxBookableSeats_min 0 sampleSlots);
      [lia | by apply Hpresent | by apply Hvalues | done | |].
    + intros e (i & Hi & ->)%elem_of_sampleSlots. cbn. by intros ->.
    + intros e (i & Hi & ->)%elem_of_sampleSlots _. cbn.
      destruct (i =? 11); lia.
  - destruct (calculateMaxBookableSeats_min 12 sampleSlots)
      as ((e & He & Hslot & ->) & _);
      [lia | by apply Hpresent | by apply Hvalues |].
    apply elem_of_sampleSlots in He as (i & Hi & ->).
    cbn [SlotData.slot SlotData.availableSeats] in *.
    apply elem_of_occupiedSlots in Hslot; [|lia].
    destruct (Z.eqb_spec i 11); [lia | done].
Defined.

(** C2. For a start slot in [0,39], when some occupied slot has no element
    in the list, the result is 0 whatever the listed slots hold. *)
Theorem calculateMaxBookableSeats_missing (startSlot : Z)
    (availableSlots : list SlotData.t) :
  0 <= startSlot <= 39 ->
  (exists slot, slot ∈ occupiedSlots startSlot
                /\ forall e, e ∈ availableSlots -> SlotData.slot e <> slot) ->
  calculateMaxBookableSeats startSlot availableSlots = 0.
Proof.
  intros _ (slot & Hin & Habsent).
  apply minOverSlots_missing. exists slot. split; [done|].
  by apply findSlot_None.
Qed.

Lemma calculateMaxBookableSeats_missing_witness :
  0 <= 30 <= 39 /\ calculateMaxBookableSeats 30 sampleSlotsWithout35 = 0.
Proof.
  split; [lia|].
  apply (calculateMaxBookableSeats_missing 30 sampleSlotsWithout35); [lia|].
  exists 35. split.
  - apply elem_of_occupiedSlots; lia.
  - intros e He Hslot. apply list_elem_of_In, filter_In in He as [_ He].
    rewrite Hslot in He. discriminate He.
Defined.

(** C10. For a start slot in [0,39] and any list the result is at most 6;
    when every occupied slot is listed with 6 seats or more, it is 6. *)
Theorem calculateMaxBookableSeats_le_capacity (startSlot : Z)
    (availableSlots : list SlotData.t) :
  0 <= startSlot <= 39 ->
  calculateMaxBookableSeats startSlot availableSlots <= 6
  /\ ((forall slot, slot ∈ occupiedSlots startSlot ->
                    exists seats, seatsAt availableSlots slot = Some seats
                                  /\ 6 <= seats) ->
      calculateMaxBookableSeats startSlot availableSlots = 6).
Proof.
  intros Hrange. split.
  - apply minOverSlots_le. lia.
  - intros Hall.
    destruct (minOverSlots_glb availableSlots (occupiedSlots startSlot) 6)
      as (Hcap & Hlb & [Hsix|(slot & Hin & Hseats)]); [|done|].
    { intros slot Hin. destruct (Hall slot Hin) as (seats & -> & _). by eexists. }
    destruct (Hall slot Hin) as (seats & Hseats' & Hbound).
    unfold calculateMaxBookableSeats. rewrite Hseats in Hseats'.
    injection Hseats' as Heq. lia.
Qed.

Lemma calculateMaxBookableSeats_le_capacity_witness :
  0 <= 5 <= 39 /\
  calculateMaxBookableSeats 5 sampleSlotsOver <= 6 /\
  calculateMaxBookableSeats 5 sampleSlotsOver = 6.
Proof.
  split; [lia|].
  destruct (calculateMaxBookableSeats_le_capacity 5 sampleSlotsOver) as [Hle Hsix];
    [lia|].
  split; [exact Hle|]. apply Hsix.
  intros slot Hin. apply elem_of_occupiedSlots in Hin; [|lia].
  exists 9. split; [|lia].
  assert (Hnat : slot = Z.of_nat (Z.to_nat slot)) by lia.
  assert (Hlt : (Z.to_nat slot < 17)%nat) by lia.
  revert Hnat Hlt. generalize (Z.to_nat slot). intros n -> Hlt.
  do 17 (destruct n as [|n]; [by vm_compute|]). lia.
Defined.

(** ** Time labels *)

Lemma generateTimeSlots_value :
  generateTimeSlots =
  ["18:00"; "18:15"; "18:30"; "18:45"; "19:00"; "19:15"; "19:30"; "19:45";
   "20:00"; "20:15"; "20:30"; "20:45"; "21:00"; "21:15"; "21:30"; "21:45";
   "22:00"; "22:15"; "22:30"; "22:45"; "23:00"; "23:15"; "23:30"; "23:45";
   "00:00"; "00:15"; "00:30"; "00:45"; "01:00"; "01:15"; "01:30"; "01:45";
   "02:00"; "02:15"; "02:30"; "02:45"; "03:00"; "03:15"; "03:30"; "03:45"].
Proof. by vm_compute. Qed.

Lemma length_generateTimeSlots : length generateTimeSlots = 40%nat.
Proof. by vm_compute. Qed.

Lemma NoDup_generateTimeSlots : NoDup generateTimeSlots.
Proof. apply (bool_decide_unpack _). by vm_compute. Qed.

(** The label of row [i] converts to [i]. *)
Lemma convertTimeToSlot_generateTimeSlots (i : nat) (t : string) :
  generateTimeSlots !! i = Some t -> convertTimeToSlot t = Some (Z.of_nat i).
Proof.
  rewrite generateTimeSlots_value.
  do 40 (destruct i as [|i]; [intros [= <-]; by vm_compute|]).
  intros H. discriminate H.
Qed.

(** C7. The three conversions the specification lists. *)
Theorem convertTimeToSlot_examples :
  convertTimeToSlot "18:00" = Some 0
  /\ convertTimeToSlot "27:45" = Some 39
  /\ convertTimeToSlot "00:00" = Some 24.
Proof. by vm_compute. Qed.

(** C4. Each of the 40 labels of [generateTimeSlots] converts to a slot
    index in [0,39], and the label [ReservationManagement] computes for
    that index is the label again. *)
Theorem timeString_convertTimeToSlot (t : string) :
  t ∈ generateTimeSlots ->
  exists slot, convertTimeToSlot t = Some slot
               /\ 0 <= slot <= 39
               /\ ReservationManagement.timeString slot = t.
Proof.
  intros Hin. apply list_elem_of_lookup in Hin as [i Hi].
  exists (Z.of_nat i).
  split; [by apply convertTimeToSlot_generateTimeSlots|].
  pose proof (lookup_lt_Some _ _ _ Hi) as Hlt.
  rewrite length_generateTimeSlots in Hlt. split; [lia|].
  revert Hi. rewrite generateTimeSlots_value.
  do 40 (destruct i as [|i]; [intros [= <-]; by vm_compute|]). lia.
Qed.

Lemma timeString_convertTimeToSlot_witness :
  "03:45" ∈ generateTimeSlots
  /\ exists slot, convertTimeToSlot "03:45" = Some slot
                  /\ 0 <= slot <= 39
                  /\ ReservationManagement.timeString slot = "03:45".
Proof.
  assert (Hin : "03:45" ∈ generateTimeSlots).
  { apply list_elem_of_lookup. exists 39%nat. by vm_compute. }
  split; [exact Hin|].
  exact (timeString_convertTimeToSlot "03:45" Hin).
Defined.

(** ** Rows of the availability data *)

Lemma fillRow_snoc (entry : Z -> SlotStatus.t) (ts : list string) (t : string) :
  fillRow entry (ts ++ [t])
  = <[ t := entry (Z.of_nat (length ts)) ]> (fillRow entry ts).
Proof.
  unfold fillRow. rewrite imap_app, foldl_app. cbn.
  by rewrite Nat.add_0_r.
Qed.

Lemma fillRow_lookup (entry : Z -> SlotStatus.t) (ts : list string)
    (i : nat) (t : string) :
  NoDup ts -> ts !! i = Some t ->
  fillRow entry ts !! t = Some (entry (Z.of_nat i)).
Proof.
  revert i t. induction ts as [|x ts IH] using rev_ind; intros i t Hnd Hi.
  - discriminate Hi.
  - apply NoDup_app in Hnd as (Hnd & Hfresh & _).
    rewrite fillRow_snoc.
    apply lookup_app_Some in Hi as [Hi|[Hge Hi]].
    + assert (t <> x).
      { intros ->. apply (Hfresh x); [by eapply list_elem_of_lookup_2 | left]. }
      rewrite lookup_insert_ne by done. by apply IH.
    + apply list_lookup_singleton_Some in Hi as [Hi <-].
      rewrite lookup_insert_eq. do 2 f_equal. lia.
Qed.


Section CalendarProperties.

Variable generateDateRange : list string.
Variables dayBefore dayAfter : string -> string.
Variable slotEntry : Z -> list SlotData.t -> SlotStatus.t.

Lemma batchDates_lookup availability (dates : list string)
    (acc a : AvailabilityData) (date : string) :
  batchDates dayBefore dayAfter slotEntry availability dates acc = Some a ->
  if decide (date ∈ dates)
  then exists availableSlots,
      batchSlots dayBefore dayAfter availability date = Some availableSlots
      /\ a !! date = Some (rowOf slotEntry availableSlots)
  else a !! date = acc !! date.
Proof.
  revert acc. induction dates as [|d rest IH]; intros acc; cbn.
  - intros [= <-]. by rewrite decide_False by apply not_elem_of_nil.
  - destruct (batchSlots dayBefore dayAfter availability d)
      as [availableSlots|] eqn:Hd; [|done].
    intros Hrest. specialize (IH _ Hrest).
    destruct (decide (date ∈ rest)) as [Hin|Hnotin].
    + rewrite decide_True by (by right). exact IH.
    + destruct (decide (date = d)) as [->|Hne].
      * rewrite decide_True by left. exists availableSlots.
        split; [done|]. by rewrite IH, lookup_insert_eq.
      * rewrite decide_False
          by (intros [?|?]%elem_of_cons; [congruence | done]).
        by rewrite IH, lookup_insert_ne.
Qed.

Lemma fallbackDates_lookup net (dates : list string)
    (acc : AvailabilityData) (date : string) :
  fallbackDates slotEntry net dates acc !! date
  = if decide (date ∈ dates) then fallbackRow slotEntry net date (acc !! date)
    else acc !! date.
Proof.
  revert acc. induction dates as [|d rest IH]; intros acc; cbn.
  - by rewrite decide_False by apply not_elem_of_nil.
  - rewrite IH. clear IH.
    set (acc' := match Backend.day net d with
                 | DayFailure => _ | DayBody _ => _ end).
    assert (Hacc' : acc' !! date
                    = if decide (date = d)
                      then fallbackRow slotEntry net date (acc !! date)
                      else acc !! date).
    { subst acc'. unfold fallbackRow.
      destruct (decide (date = d)) as [->|Hne].
      - destruct (Backend.day net d) as [|[[availableSlots|]]]; cbn;
          by rewrite ?lookup_insert_eq.
      - destruct (Backend.day net d) as [|[[availableSlots|]]]; cbn;
          by rewrite ?lookup_insert_ne. }
    rewrite Hacc'.
    destruct (decide (date = d)) as [->|Hne].
    + rewrite (decide_True (P := d ∈ d :: rest)) by left.
      destruct (decide (d ∈ rest)); [|done].
      unfold fallbackRow.
      by destruct (Backend.day net d) as [|[[availableSlots|]]].
    + destruct (decide (date ∈ rest)) as [Hin|Hnotin].
      * by rewrite decide_True by (by right).
      * by rewrite decide_False
          by (intros [?|?]%elem_of_cons; [congruence | done]).
Qed.

Lemma batchAttempt_Some net (a : AvailabilityData) :
  batchAttempt dayBefore dayAfter slotEntry net generateDateRange = Some a ->
  exists availability,
    Backend.batch net = BatchBody (Some availability)
    /\ batchDates dayBefore dayAfter slotEntry availability
                  generateDateRange ∅ = Some a.
Proof.
  unfold batchAttempt.
  destruct (Backend.batch net) as [|[availability|]]; [done| |done].
  destruct (0 <? length availability)%nat; [|done].
  intros H. by exists availability.
Qed.

(** The row of a date whose slots were fetched. *)
Lemma fetchAvailabilityWith_fetched net (date : string) availableSlots :
  date ∈ generateDateRange ->
  fetchedSlots generateDateRange dayBefore dayAfter slotEntry net date
  = Some availableSlots ->
  fetchAvailabilityWith generateDateRange dayBefore dayAfter slotEntry net
    !! date = Some (rowOf slotEntry availableSlots).
Proof.
  intros Hin. unfold fetchedSlots, fetchAvailabilityWith, fetchAvailabilityTry.
  destruct (batchAttempt _ _ _ net generateDateRange) as [a|] eqn:Hbatch.
  - apply batchAttempt_Some in Hbatch as (availability & -> & Hdates).
    intros Hslots.
    pose proof (batchDates_lookup _ _ _ _ date Hdates) as Hrow.
    rewrite decide_True in Hrow by done.
    destruct Hrow as (availableSlots' & Hslots' & ->).
    congruence.
  - intros Hday. rewrite fallbackDates_lookup, decide_True by done.
    unfold fallbackRow.
    destruct (Backend.day net date) as [|data]; [done|].
    by rewrite Hday.
Qed.

(** The row of a date for which both the batch attempt and the
    individual request failed. *)
Lemma fetchAvailabilityWith_failed net (date : string) :
  date ∈ generateDateRange ->
  batchAttempt dayBefore dayAfter slotEntry net generateDateRange = None ->
  Backend.day net date = DayFailure ->
  fetchAvailabilityWith generateDateRange dayBefore dayAfter slotEntry net
    !! date = Some unavailableRow.
Proof.
  intros Hin Hbatch Hday.
  unfold fetchAvailabilityWith, fetchAvailabilityTry. rewrite Hbatch.
  rewrite fallbackDates_lookup, decide_True by done.
  unfold fallbackRow. by rewrite Hday.
Qed.

(** ** Cells of the schedule *)

Lemma elem_of_scheduleData (a : AvailabilityData) (day : DaySchedule.t) :
  day ∈ scheduleData generateDateRange a <->
  DaySchedule.date day ∈ generateDateRange
  /\ DaySchedule.slots day
     = scheduleCell a (DaySchedule.date day) <$> generateTimeSlots.
Proof.
  unfold scheduleData. rewrite list_elem_of_fmap. split.
  - intros (date & -> & Hin). done.
  - intros [Hin Hslots]. exists (DaySchedule.date day).
    split; [|done]. destruct day as [date slots]. cbn in *. by subst.
Qed.

Lemma scheduleCell_row (a : AvailabilityData) (date : string)
    (entry : Z -> SlotStatus.t) (i : nat) (t : string) :
  a !! date = Some (fillRow entry generateTimeSlots) ->
  generateTimeSlots !! i = Some t ->
  scheduleCell a date t
  = TimeSlot.mk t (SlotStatus.available (entry (Z.of_nat i)))
                (Some (SlotStatus.availableSeats (entry (Z.of_nat i))))
                (Some (SlotStatus.maxCapacity (entry (Z.of_nat i)))).
Proof.
  intros Hrow Hi. unfold scheduleCell. rewrite Hrow. cbn.
  rewrite (fillRow_lookup entry _ i t NoDup_generateTimeSlots Hi). cbn.
  f_equal. destruct (SlotStatus.available (entry (Z.of_nat i)));
    by case_bool_decide.
Qed.

Lemma scheduleCell_no_row (a : AvailabilityData) (date t : string) :
  a !! date = None ->
  scheduleCell a date t = TimeSlot.mk t true None None.
Proof. intros Hrow. unfold scheduleCell. by rewrite Hrow. Qed.

Lemma fmap_time_scheduleCell (a : AvailabilityData) (date : string)
    (ts : list string) :
  TimeSlot.time <$> (scheduleCell a date <$> ts) = ts.
Proof. induction ts as [|t ts IH]; cbn; [done | by rewrite IH]. Qed.

Lemma slots_of_row (a : AvailabilityData) (entry : Z -> SlotStatus.t)
    (day : DaySchedule.t) :
  a !! DaySchedule.date day = Some (fillRow entry generateTimeSlots) ->
  day ∈ scheduleData generateDateRange a ->
  DaySchedule.slots day = cellsOf entry.
Proof.
  intros Hrow [_ ->]%elem_of_scheduleData. unfold cellsOf.
  apply list_eq. intros i.
  rewrite list_lookup_fmap, list_lookup_imap.
  destruct (generateTimeSlots !! i) as [t|] eqn:Hi; cbn; [|done].
  f_equal. by apply scheduleCell_row.
Qed.

Lemma cellsOf_lookup (entry : Z -> SlotStatus.t) (i : nat) (slot : TimeSlot.t) :
  cellsOf entry !! i = Some slot ->
  (i < 40)%nat
  /\ generateTimeSlots !! i = Some (TimeSlot.time slot)
  /\ TimeSlot.available slot = SlotStatus.available (entry (Z.of_nat i))
  /\ TimeSlot.availableSeats slot
     = Some (SlotStatus.availableSeats (entry (Z.of_nat i)))
  /\ TimeSlot.maxCapacity slot
     = Some (SlotStatus.maxCapacity (entry (Z.of_nat i))).
Proof.
  unfold cellsOf. rewrite list_lookup_imap.
  destruct (generateTimeSlots !! i) as [t|] eqn:Hi; cbn; [|done].
  intros [= <-]. cbn. split; [|done].
  apply lookup_lt_Some in Hi. by rewrite length_generateTimeSlots in Hi.
Qed.

Lemma cellsOf_shape (entry : Z -> SlotStatus.t) :
  length (cellsOf entry) = 40%nat
  /\ TimeSlot.time <$> cellsOf entry = generateTimeSlots.
Proof.
  unfold cellsOf. split.
  - by rewrite length_imap, length_generateTimeSlots.
  - apply list_eq. intros i. rewrite list_lookup_fmap, list_lookup_imap.
    by destruct (generateTimeSlots !! i).
Qed.

(** Every reachable schedule shows the labels of [generateTimeSlots] in
    each of its columns. *)
Lemma scheduleReachable_times (schedule : list DaySchedule.t) :
  scheduleReachable generateDateRange dayBefore dayAfter slotEntry schedule ->
  forall day, day ∈ schedule ->
              TimeSlot.time <$> DaySchedule.slots day = generateTimeSlots.
Proof.
  assert (Hdata : forall a day,
             day ∈ scheduleData generateDateRange a ->
             TimeSlot.time <$> DaySchedule.slots day = generateTimeSlots).
  { intros a day [_ ->]%elem_of_scheduleData. apply fmap_time_scheduleCell. }
  induction 1 as [|net|net|net prev target Hprev IH]; intros day Hday.
  - inversion Hday.
  - by eapply Hdata.
  - by eapply Hdata.
  - unfold refreshSingleDateWith in Hday.
    destruct (Backend.day net target) as [|[[availableSlots|]]]; cbn in Hday.
    + by eapply Hdata.
    + apply list_elem_of_fmap in Hday as (day' & -> & Hday').
      destruct (String.eqb (DaySchedule.date day') target); cbn; [|by apply IH].
      apply (cellsOf_shape (fun index => slotEntry index availableSlots)).
    + by apply IH.
Qed.

End CalendarProperties.

(** ** The claims on the availability data and the schedule *)

(** C5, as amended.  Take a date of the displayed range whose slots were
    fetched.  In the calendar that books a three-hour window its day view
    is the one of the specification: 40 entries in time order, entry [i]
    holding [calculateMaxBookableSeats i] of the fetched slots, capacity 6,
    and [available] exactly when that count is positive.  In the calendar
    that looks at each slot alone the day view has the same 40 labels, a
    listed slot is available with the seats and capacity the backend
    reported, and an unlisted slot is unavailable with 0 seats and
    capacity 6. *)
Theorem dayView_fetched (generateDateRange : list string)
    (dayBefore dayAfter : string -> string) (net : Backend.t)
    (day : DaySchedule.t) (availableSlots : list SlotData.t) :
  DaySchedule.date day ∈ generateDateRange ->
  (fetchedSlots generateDateRange dayBefore dayAfter windowEntry net
                (DaySchedule.date day) = Some availableSlots ->
   day ∈ initializeSchedule generateDateRange dayBefore dayAfter net ->
   specDayView (DaySchedule.slots day)
   /\ forall (i : nat) slot,
       DaySchedule.slots day !! i = Some slot ->
       TimeSlot.availableSeats slot
       = Some (calculateMaxBookableSeats (Z.of_nat i) availableSlots))
  /\ (fetchedSlots generateDateRange dayBefore dayAfter listedEntry net
                   (DaySchedule.date day) = Some availableSlots ->
      day ∈ PerSlot.initializeSchedule generateDateRange dayBefore dayAfter net ->
      length (DaySchedule.slots day) = 40%nat
      /\ TimeSlot.time <$> DaySchedule.slots day = generateTimeSlots
      /\ forall (i : nat) slot,
          DaySchedule.slots day !! i = Some slot ->
          match findSlot availableSlots (Z.of_nat i) with
          | Some slotData =>
              TimeSlot.available slot = true
              /\ TimeSlot.availableSeats slot
                 = Some (SlotData.availableSeats slotData)
              /\ TimeSlot.maxCapacity slot
                 = Some (SlotData.maxCapacity slotData)
          | None =>
              TimeSlot.available slot = false
              /\ TimeSlot.availableSeats slot = Some 0
              /\ TimeSlot.maxCapacity slot = Some 6
          end).
Proof.
  intros Hdate. split; intros Hfetched Hday.
  - pose proof (fetchAvailabilityWith_fetched _ _ _ _ _ _ _ Hdate Hfetched)
      as Hrow.
    pose proof (slots_of_row _ _ _ _ Hrow Hday) as ->.
    destruct (cellsOf_shape (fun index => windowEntry index availableSlots))
      as [Hlen Htimes].
    split; [split; [done | split; [done|]]|].
    + intros slot [i Hi]%list_elem_of_lookup.
      apply cellsOf_lookup in Hi as (_ & _ & Hav & Hseats & Hcap).
      eexists. split; [exact Hseats|]. split; [exact Hcap|].
      rewrite Hav. cbn.
      destruct (Z.ltb_spec 0 (calculateMaxBookableSeats (Z.of_nat i)
                                availableSlots));
        [by rewrite bool_decide_eq_true_2 | rewrite bool_decide_eq_false_2; [done|lia]].
    + intros i slot Hi.
      by apply cellsOf_lookup in Hi as (_ & _ & _ & Hseats & _).
  - pose proof (fetchAvailabilityWith_fetched _ _ _ _ _ _ _ Hdate Hfetched)
      as Hrow.
    pose proof (slots_of_row _ _ _ _ Hrow Hday) as ->.
    destruct (cellsOf_shape (fun index => listedEntry index availableSlots))
      as [Hlen Htimes].
    split; [done | split; [done|]].
    intros i slot Hi.
    apply cellsOf_lookup in Hi as (_ & _ & Hav & Hseats & Hcap).
    unfold listedEntry in Hav, Hseats, Hcap.
    by destruct (findSlot availableSlots (Z.of_nat i)).
Qed.

Lemma dayView_fetched_witness :
  DaySchedule.date sampleDay ∈ sampleDates
  /\ fetchedSlots sampleDates sampleDayBefore sampleDayAfter windowEntry
                  netBatch (DaySchedule.date sampleDay) = Some sampleSlots
  /\ sampleDay ∈ initializeSchedule sampleDates sampleDayBefore sampleDayAfter
                                    netBatch
  /\ specDayView (DaySchedule.slots sampleDay).
Proof.
  assert (Hdate : DaySchedule.date sampleDay ∈ sampleDates) by left.
  assert (Hfetched :
            fetchedSlots sampleDates sampleDayBefore sampleDayAfter windowEntry
                         netBatch (DaySchedule.date sampleDay)
            = Some sampleSlots) by (by vm_compute).
  assert (Hday : sampleDay ∈ initializeSchedule sampleDates sampleDayBefore
                                                sampleDayAfter netBatch).
  { apply list_elem_of_lookup. exists 0%nat. by vm_compute. }
  split; [exact Hdate|]. split; [exact Hfetched|]. split; [exact Hday|].
  apply (dayView_fetched sampleDates sampleDayBefore sampleDayAfter netBatch
                         sampleDay sampleSlots Hdate); [exact Hfetched | exact Hday].
Defined.

(** C5 fails as stated in the calendar that looks at each slot alone: with
    slot 0 listed with no seat left, the first entry of the day is
    available although its seat count is 0. *)
Lemma dayView_perSlot_counterexample :
  DaySchedule.date sampleDayListed ∈ sampleDates
  /\ fetchedSlots sampleDates sampleDayBefore sampleDayAfter listedEntry
                  netListed (DaySchedule.date sampleDayListed)
     = Some [SlotData.mk 0 0 6]
  /\ sampleDayListed ∈ PerSlot.initializeSchedule sampleDates sampleDayBefore
                                                  sampleDayAfter netListed
  /\ DaySchedule.slots sampleDayListed !! 0%nat
     = Some (TimeSlot.mk "18:00" true (Some 0) (Some 6))
  /\ ~ specDayView (DaySchedule.slots sampleDayListed).
Proof.
  split; [left|]. split; [by vm_compute|]. split.
  { apply list_elem_of_lookup. exists 0%nat. by vm_compute. }
  assert (Hfirst : DaySchedule.slots sampleDayListed !! 0%nat
                   = Some (TimeSlot.mk "18:00" true (Some 0) (Some 6)))
    by (by vm_compute).
  split; [exact Hfirst|].
  intros (_ & _ & Hall).
  destruct (Hall _ (list_elem_of_lookup_2 _ _ _ Hfirst))
    as (seats & [= <-] & _ & Hav).
  cbn in Hav. discriminate Hav.
Qed.



(** C8, as amended.  In either calendar, if [fetchAvailability] returns
    the empty object, the schedule that [initializeSchedule] and
    [refreshSchedule] build has, for every date of the range, the 40 labels
    with every slot available and no seat count or capacity.  The empty
    object is then the value of the body of the outer [try], not of its
    [catch], and it arises without any failed request: the batch attempt
    has yielded nothing and the individual answer of every date of the
    range has parsed but has no [availableSlots]. *)
Theorem schedule_of_empty_data (generateDateRange : list string)
    (dayBefore dayAfter : string -> string)
    (slotEntry : Z -> list SlotData.t -> SlotStatus.t) (net : Backend.t) :
  fetchAvailabilityWith generateDateRange dayBefore dayAfter slotEntry net = ∅ ->
  let open :=
    (fun date =>
       DaySchedule.mk date
         ((fun t => TimeSlot.mk t true None None) <$> generateTimeSlots))
    <$> generateDateRange in
  initializeScheduleWith generateDateRange dayBefore dayAfter slotEntry net = open
  /\ refreshScheduleWith generateDateRange dayBefore dayAfter slotEntry net = open
  /\ (forall day slot,
      day ∈ initializeScheduleWith generateDateRange dayBefore dayAfter
                                  slotEntry net ->
      slot ∈ DaySchedule.slots day ->
      TimeSlot.available slot = true)
  /\ fetchAvailabilityTry generateDateRange dayBefore dayAfter slotEntry net
     = Some ∅
  /\ forall date, date ∈ generateDateRange ->
       batchAttempt dayBefore dayAfter slotEntry net generateDateRange = None
       /\ Backend.day net date = DayBody (DayData.mk None).
Proof.
  intros Hempty open.
  assert (Hopen : scheduleData generateDateRange
                    (fetchAvailabilityWith generateDateRange dayBefore
                                           dayAfter slotEntry net) = open).
  { rewrite Hempty. subst open. unfold scheduleData.
    apply list_fmap_ext. intros _ date _.
    f_equal; apply list_fmap_ext; intros _ t _;
      apply scheduleCell_no_row, lookup_empty. }
  split; [exact Hopen|]. split; [exact Hopen|]. split; [|split].
  - intros day slot Hday Hslot.
    unfold initializeScheduleWith in Hday. rewrite Hopen in Hday.
    subst open. apply list_elem_of_fmap in Hday as (date & -> & _).
    cbn in Hslot. by apply list_elem_of_fmap in Hslot as (t & -> & _).
  - revert Hempty. unfold fetchAvailabilityWith, fetchAvailabilityTry.
    destruct (batchAttempt dayBefore dayAfter slotEntry net generateDateRange);
      by intros ->.
  - intros date Hin.
    assert (Hrow : fetchAvailabilityWith generateDateRange dayBefore dayAfter
                     slotEntry net !! date = None)
      by (by rewrite Hempty, lookup_empty).
    revert Hrow. unfold fetchAvailabilityWith, fetchAvailabilityTry.
    destruct (batchAttempt dayBefore dayAfter slotEntry net generateDateRange)
      as [a|] eqn:Hbatch.
    + apply batchAttempt_Some in Hbatch as (availability & _ & Hdates).
      pose proof (batchDates_lookup _ _ _ _ _ _ _ date Hdates) as Hlookup.
      rewrite decide_True in Hlookup by done.
      destruct Hlookup as (availableSlots & _ & ->). done.
    + rewrite fallbackDates_lookup, decide_True by done.
      unfold fallbackRow. rewrite lookup_empty.
      by destruct (Backend.day net date) as [|[[availableSlots|]]].
Qed.

Lemma schedule_of_empty_data_witness :
  fetchAvailability sampleDates sampleDayBefore sampleDayAfter netNoSlots = ∅
  /\ forall day slot,
      day ∈ initializeSchedule sampleDates sampleDayBefore sampleDayAfter
                               netNoSlots ->
      slot ∈ DaySchedule.slots day ->
      TimeSlot.available slot = true.
Proof.
  assert (Hempty : fetchAvailability sampleDates sampleDayBefore sampleDayAfter
                                     netNoSlots = ∅) by reflexivity.
  split; [exact Hempty|].
  apply (schedule_of_empty_data sampleDates sampleDayBefore sampleDayAfter
                                windowEntry netNoSlots Hempty).
Defined.

(** C8 fails as stated: when every request fails, the outer [catch] is
    not reached and the object returned is not empty; each date of the
    range has a row, and the schedule shows every slot as unavailable. *)
Lemma total_failure_fails_closed :
  Backend.batch netDown = BatchFailure
  /\ Backend.day netDown "2025-06-20" = DayFailure
  /\ fetchAvailabilityTry sampleDates sampleDayBefore sampleDayAfter
       windowEntry netDown <> None
  /\ fetchAvailability sampleDates sampleDayBefore sampleDayAfter netDown <> ∅
  /\ forall day slot,
      day ∈ initializeSchedule sampleDates sampleDayBefore sampleDayAfter
                               netDown ->
      slot ∈ DaySchedule.slots day ->
      TimeSlot.available slot = false.
Proof.
  assert (Hrows : forall date, date ∈ sampleDates ->
            fetchAvailability sampleDates sampleDayBefore sampleDayAfter netDown
              !! date = Some unavailableRow).
  { intros date Hin. by apply fetchAvailabilityWith_failed. }
  split; [done|]. split; [done|]. split; [done|]. split.
  - intros Hempty. specialize (Hrows "2025-06-20" ltac:(left)).
    rewrite Hempty, lookup_empty in Hrows. discriminate Hrows.
  - intros day slot Hday Hslot.
    assert (Hdate : DaySchedule.date day ∈ sampleDates)
      by (by apply elem_of_scheduleData in Hday as [? _]).
    rewrite (slots_of_row _ _ _ _ (Hrows _ Hdate) Hday) in Hslot.
    apply list_elem_of_lookup in Hslot as [i Hi].
    by apply cellsOf_lookup in Hi as (_ & _ & -> & _).
Qed.

(** ** The submitted slot *)

(** C9. For every index [i] in [0,39] the [i]-th label of
    [generateTimeSlots] converts to [i]; hence, in either calendar and for
    every schedule the component can hold, a click on an available cell of
    row [i] followed by the submission posts [timeSlot = i], for the date
    of the clicked column. *)
Theorem submitted_timeSlot_is_row (i : Z) :
  0 <= i <= 39 ->
  (exists t, generateTimeSlots !! Z.to_nat i = Some t
             /\ convertTimeToSlot t = Some i)
  /\ forall (generateDateRange : list string)
       (dayBefore dayAfter : string -> string)
       (slotEntry : Z -> list SlotData.t -> SlotStatus.t)
       (st : State.t) (dayIndex : nat) day slot,
      scheduleReachable generateDateRange dayBefore dayAfter slotEntry
                        (State.schedule st) ->
      State.schedule st !! dayIndex = Some day ->
      DaySchedule.slots day !! Z.to_nat i = Some slot ->
      TimeSlot.available slot = true ->
      exists request,
        handleReservationSubmit (clickCell st dayIndex (Z.to_nat i))
        = Some request
        /\ RequestData.timeSlot request = Some i
        /\ RequestData.date request = DaySchedule.date day.
Proof.
  intros Hi. split.
  - destruct (lookup_lt_is_Some_2 generateTimeSlots (Z.to_nat i)) as [t Ht].
    { rewrite length_generateTimeSlots. lia. }
    exists t. split; [done|].
    rewrite (convertTimeToSlot_generateTimeSlots _ _ Ht). f_equal. lia.
  - intros gdr db da slotEntry st dayIndex day slot Hreach Hday Hslot Hav.
    pose proof (scheduleReachable_times _ _ _ _ _ Hreach day
                  (list_elem_of_lookup_2 _ _ _ Hday)) as Htimes.
    assert (Hlabel : generateTimeSlots !! Z.to_nat i
                     = Some (TimeSlot.time slot)).
    { by rewrite <- Htimes, list_lookup_fmap, Hslot. }
    unfold clickCell. rewrite Hday, Hslot.
    unfold handleSlotClick. rewrite Hav. cbn.
    eexists. split; [reflexivity|]. cbn. split; [|done].
    rewrite (convertTimeToSlot_generateTimeSlots _ _ Hlabel). f_equal. lia.
Qed.

Lemma submitted_timeSlot_is_row_witness :
  0 <= 5 <= 39
  /\ generateTimeSlots !! 5%nat = Some "19:15"
  /\ convertTimeToSlot "19:15" = Some 5
  /\ exists request,
      handleReservationSubmit
        (clickCell
           (State.mk (initializeSchedule sampleDates sampleDayBefore
                                         sampleDayAfter netBatch)
                     None false ReservationData.empty)
           2 5)
      = Some request
      /\ RequestData.timeSlot request = Some 5
      /\ RequestData.date request = "2025-06-22".
Proof.
  assert (Hrange : 0 <= 5 <= 39) by lia.
  destruct (submitted_timeSlot_is_row 5 Hrange) as [_ Hsubmit].
  split; [exact Hrange|]. split; [reflexivity|]. split; [by vm_compute|].
  set (st := State.mk (initializeSchedule sampleDates sampleDayBefore
                                          sampleDayAfter netBatch)
                      None false ReservationData.empty).
  assert (Hday : State.schedule st !! 2%nat
                 = Some (DaySchedule.mk "2025-06-22"
                           (cellsOf (fun index => windowEntry index sampleSlots))))
    by (by vm_compute).
  assert (Hslot : cellsOf (fun index => windowEntry index sampleSlots) !! 5%nat
                  = Some (TimeSlot.mk "19:15" true (Some 2) (Some 6)))
    by (by vm_compute).
  apply (Hsubmit sampleDates sampleDayBefore sampleDayAfter windowEntry st
                 2%nat _ _ (reach_initialize _ _ _ _ netBatch) Hday Hslot).
  reflexivity.
Defined.


(** * Further properties of the window computation *)

Lemma minOverSlots_ext (l l' : list SlotData.t) (occupied : list Z) (m : Z) :
  (forall slot, slot ∈ occupied -> findSlot l slot = findSlot l' slot) ->
  minOverSlots l occupied m = minOverSlots l' occupied m.
Proof.
  revert m. induction occupied as [|s rest IH]; intros m Hext; cbn; [done|].
  rewrite <- (Hext s) by left.
  destruct (findSlot l s); [|done].
  apply IH. intros slot Hin. apply Hext. by right.
Qed.

Lemma minOverSlots_nonneg (l : list SlotData.t) (occupied : list Z) (m : Z) :
  0 <= m ->
  (forall e, e ∈ l -> 0 <= SlotData.availableSeats e) ->
  0 <= minOverSlots l occupied m.
Proof.
  revert m. induction occupied as [|s rest IH]; intros m Hm Hl; cbn; [done|].
  destruct (findSlot l s) as [e|] eqn:Hs; [|done].
  apply findSlot_Some in Hs as [Hin _].
  apply IH; [|done]. specialize (Hl e Hin). lia.
Qed.

Lemma minOverSlots_positive (l : list SlotData.t) (occupied : list Z) (m : Z) :
  0 < m ->
  0 < minOverSlots l occupied m <->
  forall slot, slot ∈ occupied ->
               exists seats, seatsAt l slot = Some seats /\ 0 < seats.
Proof.
  revert m. induction occupied as [|s rest IH]; intros m Hm; cbn.
  - split; [|done]. intros _ slot Hin. inversion Hin.
  - unfold seatsAt at 1.
    destruct (findSlot l s) as [e|] eqn:Hs.
    + destruct (Z.lt_ge_cases 0 (SlotData.availableSeats e)) as [Hpos|Hneg].
      * rewrite IH by lia. split.
        -- intros H slot [->|Hin]%elem_of_cons; [|by apply H].
           exists (SlotData.availableSeats e). unfold seatsAt. by rewrite Hs.
        -- intros H slot Hin. apply H. by right.
      * split.
        -- intros H.
           pose proof (minOverSlots_le_or_zero l rest
                         (Z.min m (SlotData.availableSeats e))). lia.
        -- intros H. destruct (H s) as (seats & Hseats & Hpos); [left|].
           unfold seatsAt in Hseats. rewrite Hs in Hseats.
           injection Hseats as <-. lia.
    + split; [lia|]. intros H. destruct (H s) as (seats & Hseats & _); [left|].
      unfold seatsAt in Hseats. by rewrite Hs in Hseats.
Qed.

Lemma minOverSlots_le_slot (l : list SlotData.t) (occupied : list Z)
    (m slot seats : Z) :
  slot ∈ occupied -> seatsAt l slot = Some seats -> 0 <= seats ->
  minOverSlots l occupied m <= seats.
Proof.
  intros Hin Hseats Hpos. revert m.
  induction occupied as [|s rest IH]; intros m; [inversion Hin|]. cbn.
  destruct (findSlot l s) as [e|] eqn:Hs; [|done].
  apply elem_of_cons in Hin as [->|Hin]; [|by apply IH].
  unfold seatsAt in Hseats. rewrite Hs in Hseats. injection Hseats as <-.
  destruct (minOverSlots_le_or_zero l rest
              (Z.min m (SlotData.availableSeats e))); lia.
Qed.

(** X1. The bookable seats never exceed what is left in a slot of the
    window: the result is at most the seat count of every occupied slot
    that is listed with a count of 0 or more, whether or not the other
    slots are listed. *)
Theorem calculateMaxBookableSeats_le_slot (startSlot : Z)
    (availableSlots : list SlotData.t) (slot seats : Z) :
  slot ∈ occupiedSlots startSlot ->
  seatsAt availableSlots slot = Some seats ->
  0 <= seats ->
  calculateMaxBookableSeats startSlot availableSlots <= seats.
Proof.
  intros Hin Hseats Hpos. by apply (minOverSlots_le_slot _ _ _ slot).
Qed.

Lemma calculateMaxBookableSeats_le_slot_witness :
  11 ∈ occupiedSlots 3 /\ calculateMaxBookableSeats 3 sampleSlots <= 2.
Proof.
  assert (Hin : 11 ∈ occupiedSlots 3) by (apply elem_of_occupiedSlots; lia).
  split; [exact Hin|].
  apply (calculateMaxBookableSeats_le_slot 3 sampleSlots 11 2); [ | | lia].
  - exact Hin.
  - apply (sampleSlots_listed 11). lia.
Defined.

(** X2. The result is positive, and the slot shown as available, exactly
    when every slot of the window is listed with a positive seat count. *)
Theorem calculateMaxBookableSeats_positive (startSlot : Z)
    (availableSlots : list SlotData.t) :
  0 < calculateMaxBookableSeats startSlot availableSlots <->
  forall slot, slot ∈ occupiedSlots startSlot ->
               exists seats, seatsAt availableSlots slot = Some seats
                             /\ 0 < seats.
Proof. apply minOverSlots_positive. lia. Qed.

Lemma calculateMaxBookableSeats_positive_witness :
  ~ 0 < calculateMaxBookableSeats 30 sampleSlotsWithout35.
Proof.
  rewrite (calculateMaxBookableSeats_positive 30 sampleSlotsWithout35).
  intros H. destruct (H 35) as (seats & Hseats & _).
  - apply elem_of_occupiedSlots; lia.
  - discriminate Hseats.
Defined.

(** X3. When no listed seat count is negative, the result lies in
    [0,6] for every start slot. *)
Theorem calculateMaxBookableSeats_range (startSlot : Z)
    (availableSlots : list SlotData.t) :
  (forall e, e ∈ availableSlots -> 0 <= SlotData.availableSeats e) ->
  0 <= calculateMaxBookableSeats startSlot availableSlots <= 6.
Proof.
  intros Hl. split.
  - by apply minOverSlots_nonneg.
  - by apply minOverSlots_le.
Qed.

Lemma calculateMaxBookableSeats_range_witness :
  0 <= calculateMaxBookableSeats 7 sampleSlotsOver <= 6.
Proof.
  apply (calculateMaxBookableSeats_range 7 sampleSlotsOver).
  intros e (i & -> & _)%list_elem_of_fmap. cbn. lia.
Defined.

Lemma calculateMaxBookableSeats_past_end_aux (startSlot : Z)
    (availableSlots : list SlotData.t) :
  39 < startSlot ->
  occupiedSlots startSlot = []
  /\ calculateMaxBookableSeats startSlot availableSlots = 6.
Proof.
  intros Hgt.
  assert (Hocc : occupiedSlots startSlot = []).
  { unfold occupiedSlots, maxSlot.
    destruct (Z.leb_spec startSlot 27); [lia|].
    unfold seqZ. by replace (Z.to_nat (39 + 1 - startSlot)) with 0%nat by lia. }
  split; [done|]. unfold calculateMaxBookableSeats. by rewrite Hocc.
Qed.

(** X4. A start slot past the last slot has an empty window: the result is
    the full capacity 6 whatever the list holds. *)
Theorem calculateMaxBookableSeats_past_end (startSlot : Z)
    (availableSlots : list SlotData.t) :
  39 < startSlot ->
  occupiedSlots startSlot = []
  /\ calculateMaxBookableSeats startSlot availableSlots = 6.
Proof. apply calculateMaxBookableSeats_past_end_aux. Qed.

Lemma calculateMaxBookableSeats_past_end_witness :
  39 < 40 /\ calculateMaxBookableSeats 40 [] = 6.
Proof.
  split; [lia|]. apply (calculateMaxBookableSeats_past_end 40 []). lia.
Defined.

Lemma findSlot_Permutation (l l' : list SlotData.t) (slot : Z) :
  NoDup (SlotData.slot <$> l) -> l ≡ₚ l' ->
  findSlot l slot = findSlot l' slot.
Proof.
  intros Hnd Hperm.
  assert (Hnd' : NoDup (SlotData.slot <$> l')) by (by rewrite <- Hperm).
  destruct (findSlot l slot) as [e|] eqn:Hs.
  - apply findSlot_Some in Hs as [Hin Hslot]. symmetry.
    apply findSlot_unique; [done | by rewrite <- Hperm | done].
  - symmetry. apply findSlot_None. intros e He.
    rewrite findSlot_None in Hs. apply Hs. by rewrite Hperm.
Qed.

(** X5. When no slot is listed twice, the result does not depend on the
    order in which the backend lists the slots. *)
Theorem calculateMaxBookableSeats_Permutation (startSlot : Z)
    (availableSlots availableSlots' : list SlotData.t) :
  NoDup (SlotData.slot <$> availableSlots) ->
  availableSlots ≡ₚ availableSlots' ->
  calculateMaxBookableSeats startSlot availableSlots
  = calculateMaxBookableSeats startSlot availableSlots'.
Proof.
  intros Hnd Hperm. apply minOverSlots_ext.
  intros slot _. by apply findSlot_Permutation.
Qed.

Lemma calculateMaxBookableSeats_Permutation_witness :
  calculateMaxBookableSeats 4 sampleSlots
  = calculateMaxBookableSeats 4 (rev sampleSlots).
Proof.
  apply (calculateMaxBookableSeats_Permutation 4 sampleSlots (rev sampleSlots)).
  - apply (bool_decide_unpack _). by vm_compute.
  - by rewrite reverse_Permutation || apply Permutation_rev.
Defined.

(** X6. From slot 28 on the window only loses its first slot when the
    start moves one slot later, so with no negative seat count listed the
    result never decreases from one start slot to the next. *)
Theorem calculateMaxBookableSeats_late_mono (startSlot : Z)
    (availableSlots : list SlotData.t) :
  27 < startSlot ->
  (forall e, e ∈ availableSlots -> 0 <= SlotData.availableSeats e) ->
  calculateMaxBookableSeats startSlot availableSlots
  <= calculateMaxBookableSeats (startSlot + 1) availableSlots.
Proof.
  intros Hlate Hnonneg.
  destruct (Z.le_gt_cases startSlot 39) as [Hle|Hgt].
  - assert (Hocc : occupiedSlots startSlot
                   = startSlot :: occupiedSlots (startSlot + 1)).
    { unfold occupiedSlots, maxSlot.
      destruct (Z.leb_spec startSlot 27); [lia|].
      destruct (Z.leb_spec (startSlot + 1) 27); [lia|].
      rewrite (seqZ_cons startSlot) by lia.
      f_equal. f_equal; lia. }
    unfold calculateMaxBookableSeats. rewrite Hocc. cbn.
    destruct (findSlot availableSlots startSlot) as [e|] eqn:Hs.
    + generalize (SlotData.availableSeats e). intros v.
      generalize (occupiedSlots (startSlot + 1)). intros occ.
      assert (Hmono : forall m m', m <= m' ->
                 minOverSlots availableSlots occ m
                 <= minOverSlots availableSlots occ m').
      { induction occ as [|s rest IH]; intros m m' Hm; cbn; [done|].
        destruct (findSlot availableSlots s); [|done]. apply IH. lia. }
      apply Hmono. lia.
    + by apply minOverSlots_nonneg.
  - destruct (calculateMaxBookableSeats_past_end_aux startSlot availableSlots)
      as [_ ->]; [lia|].
    destruct (calculateMaxBookableSeats_past_end_aux (startSlot + 1)
                availableSlots) as [_ ->]; [lia|]. done.
Qed.

Lemma calculateMaxBookableSeats_late_mono_witness :
  27 < 35 /\
  calculateMaxBookableSeats 35 sampleSlotsWithout35
  <= calculateMaxBookableSeats (35 + 1) sampleSlotsWithout35.
Proof.
  split; [lia|].
  apply (calculateMaxBookableSeats_late_mono 35 sampleSlotsWithout35); [lia|].
  intros e [Hin _]%list_elem_of_In%filter_In.
  apply list_elem_of_In, list_elem_of_fmap in Hin as (i & -> & _).
  cbn. destruct (i =? 11); lia.
Defined.

(** * Further properties of the time conversions *)

Lemma split_uint_colon (u : uint) (rest : string) :
  JS.split ":" (String.append (NilEmpty.string_of_uint u) (String ":" rest))
  = NilEmpty.string_of_uint u :: JS.split ":" rest.
Proof. induction u as [|u IH|u IH|u IH|u IH|u IH|u IH|u IH|u IH|u IH|u IH];
         simpl; [done | by rewrite IH ..]. Qed.

Lemma split_uint (u : uint) :
  JS.split ":" (NilEmpty.string_of_uint u) = [NilEmpty.string_of_uint u].
Proof. induction u as [|u IH|u IH|u IH|u IH|u IH|u IH|u IH|u IH|u IH|u IH];
         simpl; [done | by rewrite IH ..]. Qed.

Lemma Number_uint (u : uint) :
  JS.Number (NilEmpty.string_of_uint u) = Some (Z.of_uint u).
Proof.
  unfold JS.Number. rewrite NilEmpty.usu.
  by destruct (NilEmpty.string_of_uint u) eqn:Hs; [destruct u|].
Qed.

Lemma zeros_uint (n : nat) (u : uint) :
  String.append (string_of_list_ascii (repeat "0"%char n))
                (NilEmpty.string_of_uint u)
  = NilEmpty.string_of_uint (Nat.iter n D0 u)
  /\ Z.of_uint (Nat.iter n D0 u) = Z.of_uint u.
Proof.
  induction n as [|n [IHs IHz]]; [done|]. split.
  - change (String "0"%char
              (String.append (string_of_list_ascii (repeat "0"%char n))
                             (NilEmpty.string_of_uint u))
            = String "0"%char (NilEmpty.string_of_uint (Nat.iter n D0 u))).
    by rewrite IHs.
  - exact IHz.
Qed.

(** A number that is not negative is printed and padded as a run of
    decimal digits that reads back as the number. *)
Lemma padStart_toString_uint (n : Z) :
  0 <= n ->
  exists u, JS.padStart 2 "0" (JS.toString n) = NilEmpty.string_of_uint u
            /\ Z.of_uint u = n.
Proof.
  intros Hn.
  assert (Hprinted : exists u, JS.toString n = NilEmpty.string_of_uint u
                               /\ Z.of_uint u = n).
  { unfold JS.toString. pose proof (DecimalZ.of_to n) as Hround.
    destruct n as [|p|p]; [by exists (D0 Nil) | | lia].
    cbn in *. exists (Pos.to_uint p). split; [|done].
    pose proof (DecimalPos.Unsigned.to_uint_nonnil p).
    by destruct (Pos.to_uint p). }
  destruct Hprinted as (u & -> & Hu). unfold JS.padStart.
  destruct (zeros_uint (2 - String.length (NilEmpty.string_of_uint u)) u)
    as [-> Hz].
  eexists. split; [done|]. by rewrite Hz.
Qed.

(** The label of row [i], read as a slot index or computed from one. *)
Lemma label_of_slot (i : nat) :
  (i < 40)%nat ->
  generateTimeSlots !! i
  = Some (ReservationManagement.timeString (Z.of_nat i)).
Proof.
  intros Hi. do 40 (destruct i as [|i]; [by vm_compute|]). lia.
Qed.

(** X7. The start time [ReservationManagement] shows for a stored slot
    index in [0,39] is the label of that row of the calendar, and it
    converts back to the index. *)
Theorem reservation_label_round_trip (timeSlot : Z) :
  0 <= timeSlot <= 39 ->
  generateTimeSlots !! Z.to_nat timeSlot
  = Some (ReservationManagement.timeString timeSlot)
  /\ convertTimeToSlot (ReservationManagement.timeString timeSlot)
     = Some timeSlot.
Proof.
  intros Hrange.
  assert (Hlabel : generateTimeSlots !! Z.to_nat timeSlot
                   = Some (ReservationManagement.timeString timeSlot)).
  { rewrite label_of_slot by lia. do 2 f_equal. lia. }
  split; [done|].
  rewrite (convertTimeToSlot_generateTimeSlots _ _ Hlabel). f_equal. lia.
Qed.

Lemma reservation_label_round_trip_witness :
  0 <= 26 <= 39
  /\ ReservationManagement.timeString 26 = "00:30"
  /\ convertTimeToSlot (ReservationManagement.timeString 26) = Some 26.
Proof.
  split; [lia|]. split; [by vm_compute|].
  apply (reservation_label_round_trip 26). lia.
Defined.

(** X8. [convertTimeToSlot] reads back what the label format prints,
    without a range check, as long as the numbers stay where the code's
    arithmetic is exact: the label of an hour [h] and a minute [m] with
    [0 <= h < 2^50], [0 <= m < 2^50] and 15 dividing [m] converts to
    [(h' - 18) * 4 + m / 15], where [h'] is [h + 24] for [h < 18] and [h]
    otherwise; so the hours from 4 to 17 and from 28 on convert to indices
    of 40 or more. *)
Theorem convertTimeToSlot_timeString (h m : Z) :
  0 <= h < 2 ^ 50 -> 0 <= m < 2 ^ 50 -> m mod 15 = 0 ->
  convertTimeToSlot (timeString h m)
  = Some (((if h <? 18 then h + 24 else h) - 18) * 4 + m / 15)
  /\ (4 <= h < 18 \/ 28 <= h ->
      exists slot, convertTimeToSlot (timeString h m) = Some slot
                   /\ 40 <= slot < 2 ^ 53).
Proof.
  intros [Hh Hhmax] [Hm Hmmax] Hquarter.
  assert (Hvalue : convertTimeToSlot (timeString h m)
                   = Some (((if h <? 18 then h + 24 else h) - 18) * 4 + m / 15)).
  { unfold convertTimeToSlot, timeString.
    destruct (padStart_toString_uint h Hh) as (uh & -> & Huh).
    destruct (padStart_toString_uint m Hm) as (um & -> & Hum).
    change (String.append ":" (NilEmpty.string_of_uint um))
      with (String ":" (NilEmpty.string_of_uint um)).
    rewrite split_uint_colon, split_uint. cbn [fmap list_fmap].
    rewrite !Number_uint, Huh, Hum.
    by rewrite (proj2 (Z.eqb_eq _ _) Hquarter). }
  split; [done|]. intros Hout. eexists. split; [done|].
  pose proof (Z.div_pos m 15 Hm ltac:(lia)).
  assert (m / 15 <= m) by (apply Z.div_le_upper_bound; lia).
  assert (2 ^ 53 = 8 * 2 ^ 50) by reflexivity.
  destruct (Z.ltb_spec h 18); lia.
Qed.

Lemma convertTimeToSlot_timeString_witness :
  convertTimeToSlot "04:00" = Some 40
  /\ convertTimeToSlot "28:15" = Some 41.
Proof.
  split.
  - apply (convertTimeToSlot_timeString 4 0); [by vm_compute .. | reflexivity].
  - apply (convertTimeToSlot_timeString 28 15); [by vm_compute .. | reflexivity].
Defined.

(** * Further properties of the availability data *)

Lemma fillRow_is_Some (entry : Z -> SlotStatus.t) (ts : list string) (t : string) :
  is_Some (fillRow entry ts !! t) <-> t ∈ ts.
Proof.
  induction ts as [|x ts IH] using rev_ind.
  - unfold fillRow. cbn. rewrite lookup_empty. split.
    + by intros [? ?].
    + intros H. inversion H.
  - rewrite fillRow_snoc, elem_of_app, list_elem_of_singleton.
    destruct (decide (x = t)) as [->|Hne].
    + rewrite lookup_insert_eq. split; [by right | by eexists].
    + rewrite lookup_insert_ne by done. rewrite IH.
      split; [by left | intros [?|?]; [done | congruence]].
Qed.

Section FetchProperties.

Variable generateDateRange : list string.
Variables dayBefore dayAfter : string -> string.
Variable slotEntry : Z -> list SlotData.t -> SlotStatus.t.

Lemma batchDates_None availability (dates : list string)
    (acc : AvailabilityData) :
  (exists d, d ∈ dates /\ batchSlots dayBefore dayAfter availability d = None) ->
  batchDates dayBefore dayAfter slotEntry availability dates acc = None.
Proof.
  revert acc. induction dates as [|d rest IH]; intros acc (d' & Hin & Hnone).
  - inversion Hin.
  - cbn. destruct (batchSlots dayBefore dayAfter availability d) eqn:Hd; [|done].
    apply IH. exists d'. split; [|done].
    apply elem_of_cons in Hin as [->|Hin]; [congruence | done].
Qed.

Lemma batchDates_is_Some availability (dates : list string)
    (acc : AvailabilityData) :
  (forall d, d ∈ dates ->
             is_Some (batchSlots dayBefore dayAfter availability d)) ->
  is_Some (batchDates dayBefore dayAfter slotEntry availability dates acc).
Proof.
  revert acc. induction dates as [|d rest IH]; intros acc Hall; cbn.
  - by eexists.
  - destruct (Hall d) as [sl ->]; [left|].
    apply IH. intros d' Hin. apply Hall. by right.
Qed.

Lemma fallbackDates_ext net net' (dates : list string)
    (acc : AvailabilityData) :
  (forall d, Backend.day net d = Backend.day net' d) ->
  fallbackDates slotEntry net dates acc = fallbackDates slotEntry net' dates acc.
Proof.
  intros Hext. revert acc.
  induction dates as [|d rest IH]; intros acc; cbn; [done|].
  by rewrite Hext, IH.
Qed.

(** Every row of the availability data belongs to a date of the range
    and is the row of some slot list or the row of a failed request. *)
Lemma fetchAvailabilityWith_rows net (date : string)
    (row : gmap string SlotStatus.t) :
  fetchAvailabilityWith generateDateRange dayBefore dayAfter slotEntry net
    !! date = Some row ->
  date ∈ generateDateRange
  /\ ((exists availableSlots, row = rowOf slotEntry availableSlots)
      \/ row = unavailableRow).
Proof.
  unfold fetchAvailabilityWith, fetchAvailabilityTry.
  destruct (batchAttempt _ _ _ net generateDateRange) as [a|] eqn:Hbatch.
  - apply batchAttempt_Some in Hbatch as (availability & _ & Hdates).
    pose proof (batchDates_lookup _ _ _ _ _ _ _ date Hdates) as Hrow.
    destruct (decide (date ∈ generateDateRange)) as [Hin|Hnotin].
    + destruct Hrow as (availableSlots & _ & ->). intros [= <-].
      split; [done|]. left. by eexists.
    + rewrite Hrow, lookup_empty. done.
  - rewrite fallbackDates_lookup.
    destruct (decide (date ∈ generateDateRange)) as [Hin|Hnotin];
      [|by rewrite lookup_empty].
    unfold fallbackRow. rewrite lookup_empty.
    destruct (Backend.day net date) as [|[[availableSlots|]]];
      intros [= <-]; (split; [done|]); [by right | left; by eexists].
Qed.

End FetchProperties.

(** X9. In either calendar, the availability data holds rows for dates of
    the displayed range only, and each row holds an entry for each of the
    40 labels and for nothing else. *)
Theorem fetchAvailability_shape (generateDateRange : list string)
    (dayBefore dayAfter : string -> string)
    (slotEntry : Z -> list SlotData.t -> SlotStatus.t)
    (net : Backend.t) (date : string) (row : gmap string SlotStatus.t) :
  fetchAvailabilityWith generateDateRange dayBefore dayAfter slotEntry net
    !! date = Some row ->
  date ∈ generateDateRange
  /\ forall t, is_Some (row !! t) <-> t ∈ generateTimeSlots.
Proof.
  intros Hrow.
  apply fetchAvailabilityWith_rows in Hrow as [Hdate [[sl ->] | ->]];
    (split; [done|]); intros t; apply fillRow_is_Some.
Qed.

Lemma fetchAvailability_shape_witness :
  exists row,
    fetchAvailability sampleDates sampleDayBefore sampleDayAfter netDown
      !! "2025-07-01" = Some row
    /\ "2025-07-01" ∈ sampleDates
    /\ ~ is_Some (row !! "04:00").
Proof.
  destruct (fetchAvailability sampleDates sampleDayBefore sampleDayAfter netDown
              !! "2025-07-01") as [row|] eqn:Hrow; [|by vm_compute in Hrow].
  exists row. split; [done|].
  destruct (fetchAvailability_shape sampleDates sampleDayBefore sampleDayAfter
              windowEntry netDown "2025-07-01" row Hrow) as [Hdate Hlabels].
  split; [exact Hdate|]. rewrite Hlabels.
  intros Hin. rewrite generateTimeSlots_value in Hin.
  repeat (apply elem_of_cons in Hin as [Hin|Hin]; [discriminate Hin|]).
  inversion Hin.
Defined.

(** X10. In the calendar that books a three-hour window, every cell of
    the schedule either has no seat count, and is then shown as
    available, or has a seat count of at most 6 with capacity 6, and is
    then available exactly when the count is positive. *)
Theorem initializeSchedule_cells (generateDateRange : list string)
    (dayBefore dayAfter : string -> string) (net : Backend.t)
    (day : DaySchedule.t) (slot : TimeSlot.t) :
  day ∈ initializeSchedule generateDateRange dayBefore dayAfter net ->
  slot ∈ DaySchedule.slots day ->
  (TimeSlot.available slot = true
   /\ TimeSlot.availableSeats slot = None
   /\ TimeSlot.maxCapacity slot = None)
  \/ (exists seats, TimeSlot.availableSeats slot = Some seats
                    /\ seats <= 6
                    /\ TimeSlot.maxCapacity slot = Some 6
                    /\ TimeSlot.available slot = bool_decide (0 < seats)).
Proof.
  intros Hday Hslot.
  unfold initializeSchedule, initializeScheduleWith in Hday.
  destruct (fetchAvailabilityWith generateDateRange dayBefore dayAfter
              windowEntry net !! DaySchedule.date day) as [row|] eqn:Hrow.
  - right.
    assert (Hentry : exists entry : Z -> SlotStatus.t,
               row = fillRow entry generateTimeSlots
               /\ forall i, SlotStatus.availableSeats (entry i) <= 6
                            /\ SlotStatus.maxCapacity (entry i) = 6
                            /\ SlotStatus.available (entry i)
                               = bool_decide (0 < SlotStatus.availableSeats (entry i))).
    { apply fetchAvailabilityWith_rows in Hrow as [_ [[sl ->] | ->]].
      - exists (fun index => windowEntry index sl). split; [done|].
        intros i. cbn. split; [apply minOverSlots_le; lia|]. split; [done|].
        destruct (Z.ltb_spec 0 (calculateMaxBookableSeats i sl));
          [by rewrite bool_decide_eq_true_2
          | rewrite bool_decide_eq_false_2; [done|lia]].
      - exists (fun _ => unavailableEntry). split; [done|]. intros _. cbn.
        split; [lia|]. split; [done|]. by rewrite bool_decide_eq_false_2. }
    destruct Hentry as (entry & -> & Hentry).
    rewrite (slots_of_row _ _ _ _ Hrow Hday) in Hslot.
    apply list_elem_of_lookup in Hslot as [i Hi].
    apply cellsOf_lookup in Hi as (_ & _ & Hav & Hseats & Hcap).
    destruct (Hentry (Z.of_nat i)) as (Hle & Hsix & Hpos).
    eexists. split; [exact Hseats|]. split; [exact Hle|].
    split; [by rewrite Hcap, Hsix | by rewrite Hav].
  - left. apply elem_of_scheduleData in Hday as [_ Hslots].
    rewrite Hslots in Hslot.
    apply list_elem_of_fmap in Hslot as (t & -> & _).
    by rewrite (scheduleCell_no_row _ _ _ Hrow).
Qed.

Lemma initializeSchedule_cells_witness :
  sampleDay ∈ initializeSchedule sampleDates sampleDayBefore sampleDayAfter
                                 netBatch
  /\ exists slot seats,
      DaySchedule.slots sampleDay !! 3%nat = Some slot
      /\ TimeSlot.availableSeats slot = Some seats
      /\ seats <= 6.
Proof.
  assert (Hday : sampleDay ∈ initializeSchedule sampleDates sampleDayBefore
                                                sampleDayAfter netBatch).
  { apply list_elem_of_lookup. exists 0%nat. by vm_compute. }
  split; [exact Hday|].
  destruct (DaySchedule.slots sampleDay !! 3%nat) as [slot|] eqn:Hslot;
    [|by vm_compute in Hslot].
  destruct (initializeSchedule_cells sampleDates sampleDayBefore sampleDayAfter
              netBatch sampleDay slot Hday
              (list_elem_of_lookup_2 _ _ _ Hslot))
    as [(_ & Hnone & _) | (seats & Hseats & Hle & _)].
  - exfalso. revert Hslot Hnone. vm_compute. intros [= <-]. discriminate.
  - exists slot, seats. done.
Defined.

(** ** The batch answer *)

Lemma find_eqb_elem (keys : list string) (d : string) :
  d ∈ keys -> List.find (String.eqb d) keys = Some d.
Proof.
  induction keys as [|k keys IH]; intros Hin; [inversion Hin|]. cbn.
  destruct (String.eqb_spec d k) as [->|Hne]; [done|].
  apply elem_of_cons in Hin as [->|Hin]; [done | by apply IH].
Qed.

Lemma find_eqb_not_elem (keys : list string) (d : string) :
  d ∉ keys -> List.find (String.eqb d) keys = None.
Proof.
  induction keys as [|k keys IH]; intros Hnotin; [done|]. cbn.
  destruct (String.eqb_spec d k) as [->|Hne].
  - destruct Hnotin. left.
  - apply IH. intros Hin. apply Hnotin. by right.
Qed.

Lemma batchLookup_elem (availability : list (string * option DayData.t))
    (key : string) (dayData : option DayData.t) :
  NoDup availability.*1 ->
  (key, dayData) ∈ availability ->
  batchLookup availability key = dayData.
Proof.
  unfold batchLookup.
  induction availability as [|[k v] rest IH]; intros Hnd Hin;
    [inversion Hin|]. cbn in *.
  apply NoDup_cons in Hnd as [Hfresh Hnd].
  destruct (String.eqb_spec k key) as [->|Hne].
  - apply elem_of_cons in Hin as [[= <-]|Hin]; [done|].
    destruct Hfresh. apply list_elem_of_fmap. by exists (key, dayData).
  - apply elem_of_cons in Hin as [[= -> _]|Hin]; [done | by apply IH].
Qed.

(** X11. In either calendar, a batch answer that lacks slots for one date
    of the range is not used at all: the availability data is the one the
    individual requests give, as if the batch request had failed. *)
Theorem fetchAvailability_partial_batch (generateDateRange : list string)
    (dayBefore dayAfter : string -> string)
    (slotEntry : Z -> list SlotData.t -> SlotStatus.t)
    (availability : list (string * option DayData.t))
    (day : string -> DayResponse) (date : string) :
  date ∈ generateDateRange ->
  batchSlots dayBefore dayAfter availability date = None ->
  fetchAvailabilityWith generateDateRange dayBefore dayAfter slotEntry
    (Backend.mk (BatchBody (Some availability)) day)
  = fetchAvailabilityWith generateDateRange dayBefore dayAfter slotEntry
      (Backend.mk BatchFailure day).
Proof.
  intros Hin Hnone. unfold fetchAvailabilityWith, fetchAvailabilityTry.
  unfold batchAttempt. cbn [Backend.batch].
  rewrite (batchDates_None dayBefore dayAfter slotEntry availability
             generateDateRange ∅) by (by exists date).
  assert (Hfallback :
            fallbackDates slotEntry
              (Backend.mk (BatchBody (Some availability)) day)
              generateDateRange ∅
            = fallbackDates slotEntry (Backend.mk BatchFailure day)
                            generateDateRange ∅)
    by (by apply fallbackDates_ext).
  destruct (0 <? length availability)%nat; by rewrite Hfallback.
Qed.

Lemma fetchAvailability_partial_batch_witness :
  fetchAvailability sampleDates sampleDayBefore sampleDayAfter
    (Backend.mk (BatchBody (Some [("2025-06-20", Some (DayData.mk (Some sampleSlots)))]))
                (fun _ => DayFailure))
  = fetchAvailability sampleDates sampleDayBefore sampleDayAfter netDown.
Proof.
  apply (fetchAvailability_partial_batch sampleDates sampleDayBefore
           sampleDayAfter windowEntry _ _ "2025-06-25").
  - apply list_elem_of_lookup. exists 5%nat. reflexivity.
  - reflexivity.
Defined.

(** X12. In either calendar, when the batch answer is not empty and has
    slots for every date of the range, every date gets the row computed
    from the slots of the batch answer, and the individual answers play
    no part. *)
Theorem fetchAvailability_full_batch (generateDateRange : list string)
    (dayBefore dayAfter : string -> string)
    (slotEntry : Z -> list SlotData.t -> SlotStatus.t)
    (availability : list (string * option DayData.t))
    (day day' : string -> DayResponse) :
  availability <> [] ->
  (forall date, date ∈ generateDateRange ->
                is_Some (batchSlots dayBefore dayAfter availability date)) ->
  fetchAvailabilityWith generateDateRange dayBefore dayAfter slotEntry
    (Backend.mk (BatchBody (Some availability)) day)
  = fetchAvailabilityWith generateDateRange dayBefore dayAfter slotEntry
      (Backend.mk (BatchBody (Some availability)) day')
  /\ forall date, date ∈ generateDateRange ->
       exists availableSlots,
         batchSlots dayBefore dayAfter availability date = Some availableSlots
         /\ fetchAvailabilityWith generateDateRange dayBefore dayAfter slotEntry
              (Backend.mk (BatchBody (Some availability)) day) !! date
            = Some (rowOf slotEntry availableSlots).
Proof.
  intros Hne Hall.
  destruct (batchDates_is_Some dayBefore dayAfter slotEntry availability
              generateDateRange ∅ Hall) as [a Ha].
  assert (Hbatch : forall d,
             batchAttempt dayBefore dayAfter slotEntry
               (Backend.mk (BatchBody (Some availability)) d) generateDateRange
             = Some a).
  { intros d. unfold batchAttempt. cbn [Backend.batch].
    destruct availability; [done | exact Ha]. }
  unfold fetchAvailabilityWith, fetchAvailabilityTry. rewrite !Hbatch.
  split; [done|]. intros date Hin.
  pose proof (batchDates_lookup _ _ _ _ _ _ _ date Ha) as Hrow.
  by rewrite decide_True in Hrow.
Qed.

Lemma fetchAvailability_full_batch_witness :
  fetchAvailability sampleDates sampleDayBefore sampleDayAfter netBatch
  = fetchAvailability sampleDates sampleDayBefore sampleDayAfter
      (Backend.mk (Backend.batch netBatch)
                  (fun _ => DayBody (DayData.mk (Some sampleSlotsOver)))).
Proof.
  apply (fetchAvailability_full_batch sampleDates sampleDayBefore
           sampleDayAfter windowEntry); [discriminate|].
  intros date Hin. unfold sampleDates in Hin.
  repeat (apply elem_of_cons in Hin as [->|Hin]; [by eexists|]).
  inversion Hin.
Defined.

(** X13. When the batch answer has a key for the date itself, with slots,
    the row of the date is computed from these slots, whatever the keys of
    the neighbouring days hold (keys of the answer are distinct). *)
Theorem batchSlots_exact (dayBefore dayAfter : string -> string)
    (availability : list (string * option DayData.t))
    (date : string) (availableSlots : list SlotData.t) :
  NoDup availability.*1 ->
  date <> "" ->
  (date, Some (DayData.mk (Some availableSlots))) ∈ availability ->
  batchSlots dayBefore dayAfter availability date = Some availableSlots.
Proof.
  intros Hnd Hne Hin. unfold batchSlots, matchingApiDate.
  rewrite find_eqb_elem
    by (apply list_elem_of_fmap; by exists (date, Some (DayData.mk (Some availableSlots)))).
  assert (Htruthy : truthy (Some date) = true) by (by destruct date).
  rewrite Htruthy. change (default "" (Some date)) with date.
  rewrite (batchLookup_elem _ _ _ Hnd Hin), ?Htruthy. reflexivity.
Qed.

Lemma batchSlots_exact_witness :
  batchSlots sampleDayBefore sampleDayAfter
    [("2025-06-20", Some (DayData.mk (Some sampleSlotsOver)));
     ("2025-06-21", Some (DayData.mk (Some sampleSlots)));
     ("2025-06-22", Some (DayData.mk (Some sampleSlotsOver)))]
    "2025-06-21"
  = Some sampleSlots.
Proof.
  apply (batchSlots_exact sampleDayBefore sampleDayAfter).
  - apply (bool_decide_unpack _). by vm_compute.
  - discriminate.
  - right. left.
Defined.

(** X14. When the batch answer has no key for the date but has one for a
    neighbouring day, and for one only, the row of the date is computed
    from the slots of that neighbouring day. *)
Theorem batchSlots_neighbour (dayBefore dayAfter : string -> string)
    (availability : list (string * option DayData.t))
    (date key : string) (availableSlots : list SlotData.t) :
  NoDup availability.*1 ->
  date ∉ availability.*1 ->
  key <> "" ->
  key = dayBefore date \/ key = dayAfter date ->
  (forall k, k ∈ availability.*1 ->
             k = dayBefore date \/ k = dayAfter date -> k = key) ->
  (key, Some (DayData.mk (Some availableSlots))) ∈ availability ->
  batchSlots dayBefore dayAfter availability date = Some availableSlots.
Proof.
  intros Hnd Habsent Hne Hkey Honly Hin. unfold batchSlots, matchingApiDate.
  rewrite find_eqb_not_elem by done. cbn [truthy].
  assert (Hfind : List.find (fun apiDate =>
                               String.eqb apiDate (dayBefore date)
                               || String.eqb apiDate (dayAfter date))
                            availability.*1 = Some key).
  { assert (Hkeys : key ∈ availability.*1)
      by (apply list_elem_of_fmap;
          by exists (key, Some (DayData.mk (Some availableSlots)))).
    revert Hkeys Honly. generalize (availability.*1). intros keys.
    induction keys as [|k keys IH]; intros Hkeys Honly; [inversion Hkeys|].
    cbn. destruct (String.eqb k (dayBefore date)
                   || String.eqb k (dayAfter date)) eqn:Hk.
    - f_equal. apply Honly; [left|].
      apply orb_true_iff in Hk as [Hk|Hk]; apply String.eqb_eq in Hk; auto.
    - apply elem_of_cons in Hkeys as [->|Hkeys].
      + apply orb_false_iff in Hk as [Hb Ha].
        apply String.eqb_neq in Hb, Ha. by destruct Hkey.
      + apply IH; [done|]. intros k' Hk'. apply Honly. by right. }
  rewrite Hfind.
  assert (Htruthy : truthy (Some key) = true) by (by destruct key).
  rewrite Htruthy. change (default "" (Some key)) with key.
  rewrite (batchLookup_elem _ _ _ Hnd Hin), ?Htruthy. reflexivity.
Qed.

Lemma batchSlots_neighbour_witness :
  batchSlots sampleDayBefore sampleDayAfter
    [("2025-06-22", Some (DayData.mk (Some sampleSlots)))] "2025-06-21"
  = Some sampleSlots.
Proof.
  apply (batchSlots_neighbour sampleDayBefore sampleDayAfter _ _ "2025-06-22").
  - apply (bool_decide_unpack _). by vm_compute.
  - intros [Hin|Hin]%elem_of_cons; [discriminate Hin | inversion Hin].
  - discriminate.
  - right. reflexivity.
  - intros k [->|Hin]%elem_of_cons; [done | inversion Hin].
  - left.
Defined.

(** X15. In either calendar, when the batch attempt yields nothing and
    the individual answer for a date of the range parses but has no
    [availableSlots], the date gets no row and the schedule shows each of
    its 40 slots as available, with no seat count. *)
Theorem no_slots_shown_available (generateDateRange : list string)
    (dayBefore dayAfter : string -> string)
    (slotEntry : Z -> list SlotData.t -> SlotStatus.t)
    (net : Backend.t) (date : string) :
  date ∈ generateDateRange ->
  batchAttempt dayBefore dayAfter slotEntry net generateDateRange = None ->
  Backend.day net date = DayBody (DayData.mk None) ->
  fetchAvailabilityWith generateDateRange dayBefore dayAfter slotEntry net
    !! date = None
  /\ forall day,
      day ∈ initializeScheduleWith generateDateRange dayBefore dayAfter
                                  slotEntry net ->
      DaySchedule.date day = date ->
      DaySchedule.slots day
      = (fun t => TimeSlot.mk t true None None) <$> generateTimeSlots.
Proof.
  intros Hin Hbatch Hday.
  assert (Hrow : fetchAvailabilityWith generateDateRange dayBefore dayAfter
                   slotEntry net !! date = None).
  { unfold fetchAvailabilityWith, fetchAvailabilityTry. rewrite Hbatch.
    rewrite fallbackDates_lookup, decide_True by done.
    unfold fallbackRow. by rewrite Hday, lookup_empty. }
  split; [done|]. intros day [_ ->]%elem_of_scheduleData <-.
  apply list_fmap_ext. intros _ t _. by apply scheduleCell_no_row.
Qed.

Lemma no_slots_shown_available_witness :
  "2025-06-30" ∈ sampleDates
  /\ fetchAvailability sampleDates sampleDayBefore sampleDayAfter netNoSlots
       !! "2025-06-30" = None.
Proof.
  assert (Hin : "2025-06-30" ∈ sampleDates).
  { apply list_elem_of_lookup. exists 10%nat. reflexivity. }
  split; [exact Hin|].
  apply (no_slots_shown_available sampleDates sampleDayBefore sampleDayAfter
           windowEntry netNoSlots "2025-06-30" Hin eq_refl eq_refl).
Defined.

(** * Further properties of the schedule *)

Section ScheduleProperties.

Variable generateDateRange : list string.
Variables dayBefore dayAfter : string -> string.
Variable slotEntry : Z -> list SlotData.t -> SlotStatus.t.

Lemma fmap_date_scheduleData (a : AvailabilityData) :
  DaySchedule.date <$> scheduleData generateDateRange a = generateDateRange.
Proof.
  unfold scheduleData. rewrite <- list_fmap_compose.
  induction generateDateRange as [|d l IH]; cbn; [done | by rewrite IH].
Qed.

Lemma fmap_date_replace (updatedSlots : list TimeSlot.t) (target : string)
    (prev : list DaySchedule.t) :
  DaySchedule.date
    <$> ((fun day => if String.eqb (DaySchedule.date day) target
                     then DaySchedule.mk (DaySchedule.date day) updatedSlots
                     else day) <$> prev)
  = DaySchedule.date <$> prev.
Proof.
  induction prev as [|day prev IH]; cbn; [done|]. rewrite IH. f_equal.
  by destruct (String.eqb (DaySchedule.date day) target).
Qed.

(** The columns of a reachable schedule that is not empty are the dates
    of the range, in order. *)
Lemma scheduleReachable_dates (schedule : list DaySchedule.t) :
  scheduleReachable generateDateRange dayBefore dayAfter slotEntry schedule ->
  schedule = [] \/ DaySchedule.date <$> schedule = generateDateRange.
Proof.
  induction 1 as [|net|net|net prev target Hprev IH].
  - by left.
  - right. apply fmap_date_scheduleData.
  - right. apply fmap_date_scheduleData.
  - unfold refreshSingleDateWith.
    destruct (Backend.day net target) as [|[[availableSlots|]]]; cbn.
    + right. apply fmap_date_scheduleData.
    + destruct IH as [->|IH]; [by left|]. right.
      by rewrite fmap_date_replace.
    + exact IH.
Qed.

End ScheduleProperties.

(** X16. In either calendar, every schedule the component can hold is
    empty (before the first load) or has one column per date of the
    range, in order, each with exactly 40 cells labelled by
    [generateTimeSlots]; so the grid, whose rows are the cells of the
    first column, finds a cell in every column for each of its rows. *)
Theorem scheduleReachable_grid (generateDateRange : list string)
    (dayBefore dayAfter : string -> string)
    (slotEntry : Z -> list SlotData.t -> SlotStatus.t)
    (schedule : list DaySchedule.t) :
  scheduleReachable generateDateRange dayBefore dayAfter slotEntry schedule ->
  schedule = []
  \/ (DaySchedule.date <$> schedule = generateDateRange
      /\ forall day, day ∈ schedule ->
           length (DaySchedule.slots day) = 40%nat
           /\ TimeSlot.time <$> DaySchedule.slots day = generateTimeSlots).
Proof.
  intros Hreach.
  destruct (scheduleReachable_dates _ _ _ _ _ Hreach) as [->|Hdates];
    [by left|].
  right. split; [done|]. intros day Hday.
  pose proof (scheduleReachable_times _ _ _ _ _ Hreach day Hday) as Htimes.
  split; [|done].
  by rewrite <- (length_fmap TimeSlot.time), Htimes, length_generateTimeSlots.
Qed.

Lemma scheduleReachable_grid_witness :
  DaySchedule.date
    <$> refreshSingleDateWith sampleDates sampleDayBefore sampleDayAfter
          windowEntry netListed
          (initializeSchedule sampleDates sampleDayBefore sampleDayAfter netDown)
          "2025-06-23"
  = sampleDates.
Proof.
  destruct (scheduleReachable_grid sampleDates sampleDayBefore sampleDayAfter
              windowEntry _
              (reach_single _ _ _ _ netListed _ "2025-06-23"
                            (reach_initialize _ _ _ _ netDown)))
    as [Hempty | [Hdates _]].
  - exfalso. revert Hempty. by vm_compute.
  - exact Hdates.
Defined.

(** X17. In either calendar, when the batch attempt yields nothing and
    the answer for a date of the range has slots, [refreshSingleDate] and
    [refreshSchedule] give that date the same cells. *)
Theorem refreshSingleDate_agrees (generateDateRange : list string)
    (dayBefore dayAfter : string -> string)
    (slotEntry : Z -> list SlotData.t -> SlotStatus.t)
    (net : Backend.t) (prevSchedule : list DaySchedule.t)
    (targetDate : string) (availableSlots : list SlotData.t)
    (day day' : DaySchedule.t) :
  targetDate ∈ generateDateRange ->
  batchAttempt dayBefore dayAfter slotEntry net generateDateRange = None ->
  Backend.day net targetDate = DayBody (DayData.mk (Some availableSlots)) ->
  day ∈ refreshSingleDateWith generateDateRange dayBefore dayAfter slotEntry
                              net prevSchedule targetDate ->
  DaySchedule.date day = targetDate ->
  day' ∈ refreshScheduleWith generateDateRange dayBefore dayAfter slotEntry net ->
  DaySchedule.date day' = targetDate ->
  DaySchedule.slots day = DaySchedule.slots day'.
Proof.
  intros Hin Hbatch Hresp Hday Hdate Hday' Hdate'.
  assert (Hrow : fetchAvailabilityWith generateDateRange dayBefore dayAfter
                   slotEntry net !! DaySchedule.date day'
                 = Some (rowOf slotEntry availableSlots)).
  { rewrite Hdate'. apply fetchAvailabilityWith_fetched; [done|].
    unfold fetchedSlots. by rewrite Hbatch, Hresp. }
  rewrite (slots_of_row _ _ _ _ Hrow Hday').
  unfold refreshSingleDateWith in Hday. rewrite Hresp in Hday. cbn in Hday.
  apply list_elem_of_fmap in Hday as (day0 & -> & _).
  destruct (String.eqb_spec (DaySchedule.date day0) targetDate) as [_|Hne];
    [done|]. by destruct Hne.
Qed.

Lemma refreshSingleDate_agrees_witness :
  "2025-06-20" ∈ sampleDates
  /\ sampleDayClosed
     ∈ refreshSingleDateWith sampleDates sampleDayBefore sampleDayAfter
         windowEntry netListed (State.schedule sampleState) "2025-06-20"
  /\ sampleDayClosed
     ∈ refreshScheduleWith sampleDates sampleDayBefore sampleDayAfter
         windowEntry netListed
  /\ DaySchedule.slots sampleDayClosed = DaySchedule.slots sampleDayClosed.
Proof.
  assert (Hdate : "2025-06-20" ∈ sampleDates) by left.
  assert (Hsingle :
            sampleDayClosed
            ∈ refreshSingleDateWith sampleDates sampleDayBefore sampleDayAfter
                windowEntry netListed (State.schedule sampleState)
                "2025-06-20").
  { apply list_elem_of_lookup. exists 0%nat. by vm_compute. }
  assert (Hfull :
            sampleDayClosed
            ∈ refreshScheduleWith sampleDates sampleDayBefore sampleDayAfter
                windowEntry netListed).
  { apply list_elem_of_lookup. exists 0%nat. by vm_compute. }
  split; [exact Hdate|]. split; [exact Hsingle|]. split; [exact Hfull|].
  exact (refreshSingleDate_agrees sampleDates sampleDayBefore sampleDayAfter
           windowEntry netListed (State.schedule sampleState) "2025-06-20"
           [SlotData.mk 0 0 6] sampleDayClosed sampleDayClosed
           Hdate eq_refl eq_refl Hsingle eq_refl Hfull eq_refl).
Defined.

(** X18. In the calendar that books a three-hour window, a cell of a date
    whose slots were fetched cannot be selected when a slot of its window
    is not listed: the click leaves the state as it is, so no request for
    that cell can be submitted. *)
Theorem click_closed_window (generateDateRange : list string)
    (dayBefore dayAfter : string -> string) (net : Backend.t)
    (st : State.t) (dayIndex slotIndex : nat) (day : DaySchedule.t)
    (availableSlots : list SlotData.t) (missing : Z) :
  State.schedule st
  = initializeSchedule generateDateRange dayBefore dayAfter net ->
  State.schedule st !! dayIndex = Some day ->
  fetchedSlots generateDateRange dayBefore dayAfter windowEntry net
               (DaySchedule.date day) = Some availableSlots ->
  missing ∈ occupiedSlots (Z.of_nat slotIndex) ->
  (forall e, e ∈ availableSlots -> SlotData.slot e <> missing) ->
  clickCell st dayIndex slotIndex = st.
Proof.
  intros Hschedule Hday Hfetched Hwindow Hmissing.
  assert (Hin : day ∈ initializeSchedule generateDateRange dayBefore
                                         dayAfter net).
  { rewrite <- Hschedule. by eapply list_elem_of_lookup_2. }
  assert (Hdate : DaySchedule.date day ∈ generateDateRange)
    by (by apply elem_of_scheduleData in Hin as [? _]).
  pose proof (fetchAvailabilityWith_fetched _ _ _ _ _ _ _ Hdate Hfetched)
    as Hrow.
  pose proof (slots_of_row _ _ _ _ Hrow Hin) as Hslots.
  unfold clickCell. rewrite Hday, Hslots.
  destruct (cellsOf (fun index => windowEntry index availableSlots)
              !! slotIndex) as [slot|] eqn:Hslot; [|done].
  apply cellsOf_lookup in Hslot as (_ & _ & Hav & _).
  unfold handleSlotClick. rewrite Hav. cbn.
  unfold calculateMaxBookableSeats.
  rewrite minOverSlots_missing; [done|].
  exists missing. split; [done|]. by apply findSlot_None.
Qed.

Lemma click_closed_window_witness :
  1 ∈ occupiedSlots (Z.of_nat 0)
  /\ clickCell sampleStateListed 4 0 = sampleStateListed.
Proof.
  assert (Hwindow : 1 ∈ occupiedSlots (Z.of_nat 0))
    by (apply elem_of_occupiedSlots; cbn; lia).
  split; [exact Hwindow|].
  apply (click_closed_window sampleDates sampleDayBefore sampleDayAfter
           netListed sampleStateListed 4 0
           (DaySchedule.mk "2025-06-24"
              (cellsOf (fun index => windowEntry index [SlotData.mk 0 0 6])))
           [SlotData.mk 0 0 6] 1).
  - reflexivity.
  - by vm_compute.
  - by vm_compute.
  - exact Hwindow.
  - intros e [->|Hin]%elem_of_cons; [discriminate | inversion Hin].
Defined.

(** * Properties of the submitted request *)

Lemma parseInt_guestOptions (num : Z) :
  num ∈ guestOptions -> parseInt (JS.toString num) = Some num.
Proof.
  unfold guestOptions. intros Hin.
  repeat (apply elem_of_cons in Hin as [->|Hin]; [by vm_compute|]).
  inversion Hin.
Qed.

Section ComponentProperties.

Variable generateDateRange : list string.
Variables dayBefore dayAfter : string -> string.
Variable slotEntry : Z -> list SlotData.t -> SlotStatus.t.

Lemma stateInvariant_click (st : State.t) (dayIndex slotIndex : nat) :
  stateInvariant generateDateRange dayBefore dayAfter slotEntry st ->
  stateInvariant generateDateRange dayBefore dayAfter slotEntry
                 (clickCell st dayIndex slotIndex).
Proof.
  intros [Hreach Hsel]. unfold clickCell.
  destruct (State.schedule st !! dayIndex) as [day|] eqn:Hday; [|done].
  destruct (DaySchedule.slots day !! slotIndex) as [slot|] eqn:Hslot; [|done].
  unfold handleSlotClick.
  destruct (TimeSlot.available slot); [|done].
  split; [done|]. cbn.
  apply list_elem_of_lookup_2 in Hday.
  split; [done|]. split; [|split].
  - destruct (scheduleReachable_dates _ _ _ _ _ Hreach) as [Hempty|<-].
    + rewrite Hempty in Hday. inversion Hday.
    + apply list_elem_of_fmap. by exists day.
  - rewrite <- (scheduleReachable_times _ _ _ _ _ Hreach day Hday).
    apply list_elem_of_fmap. exists slot. split; [done|].
    by eapply list_elem_of_lookup_2.
  - exists 1. split; [done | left].
Qed.

Lemma stateInvariant_step (st st' : State.t) :
  step generateDateRange dayBefore dayAfter slotEntry st st' ->
  stateInvariant generateDateRange dayBefore dayAfter slotEntry st ->
  stateInvariant generateDateRange dayBefore dayAfter slotEntry st'.
Proof.
  intros Hstep [Hreach Hsel].
  destruct Hstep as [net st|net st|st dayIndex slotIndex|st value Hshow
                    |st value Hshow|st num Hshow Hnum|st Hshow|net ok st Hshow].
  - split; [apply reach_initialize | exact Hsel].
  - split; [apply reach_refresh | exact Hsel].
  - by apply stateInvariant_click.
  - split; [done|]. cbn. by destruct (State.selectedSlot st) as [[date time]|].
  - split; [done|]. cbn. by destruct (State.selectedSlot st) as [[date time]|].
  - split; [done|]. cbn.
    destruct (State.selectedSlot st) as [[date time]|]; [|done].
    destruct Hsel as (Hform & Hdate & Htime & _).
    split; [done|]. split; [done|]. split; [done|].
    exists num. split; [by apply parseInt_guestOptions | done].
  - split; [done|]. done.
  - unfold afterSubmit.
    destruct (State.selectedSlot st) as [[date time]|] eqn:Hselected;
      [|split; [done | by rewrite Hselected]].
    destruct ok; [|split; [done | by rewrite Hselected]].
    split; [by apply reach_single | done].
Qed.

Lemma reachableState_invariant (st : State.t) :
  reachableState generateDateRange dayBefore dayAfter slotEntry st ->
  stateInvariant generateDateRange dayBefore dayAfter slotEntry st.
Proof.
  unfold reachableState. intros Hrtc.
  assert (Hinit : stateInvariant generateDateRange dayBefore dayAfter
                                 slotEntry initialState)
    by (split; [apply reach_empty | done]).
  revert Hinit. induction Hrtc as [st|st st' st'' Hstep _ IH]; [done|].
  intros Hinv. apply IH. by eapply stateInvariant_step.
Qed.

End ComponentProperties.

(** X19. In either calendar, whatever the sequence of loads, refreshes,
    clicks, edits of the form, cancellations and submissions, and whatever
    the backend answered, a request that the form submits has an integer
    [timeSlot] in [0,39], a [partySize] in [1,6] and a [date] of the
    displayed range. *)
Theorem submitted_request_in_range (generateDateRange : list string)
    (dayBefore dayAfter : string -> string)
    (slotEntry : Z -> list SlotData.t -> SlotStatus.t)
    (st : State.t) (request : RequestData.t) :
  reachableState generateDateRange dayBefore dayAfter slotEntry st ->
  handleReservationSubmit st = Some request ->
  (exists timeSlot, RequestData.timeSlot request = Some timeSlot
                    /\ 0 <= timeSlot <= 39)
  /\ (exists partySize, RequestData.partySize request = Some partySize
                        /\ 1 <= partySize <= 6)
  /\ RequestData.date request ∈ generateDateRange.
Proof.
  intros Hreach Hsubmit.
  apply reachableState_invariant in Hreach as [_ Hsel].
  unfold handleReservationSubmit in Hsubmit.
  destruct (State.selectedSlot st) as [[date time]|]; [|done].
  injection Hsubmit as <-. cbn.
  destruct Hsel as (_ & Hdate & Htime & guests & -> & Hguests).
  split; [|split; [|done]].
  - apply list_elem_of_lookup in Htime as [i Hi].
    exists (Z.of_nat i). split; [by apply convertTimeToSlot_generateTimeSlots|].
    apply lookup_lt_Some in Hi. rewrite length_generateTimeSlots in Hi. lia.
  - exists guests. split; [done|]. unfold guestOptions in Hguests.
    repeat (apply elem_of_cons in Hguests as [->|Hguests]; [lia|]).
    inversion Hguests.
Qed.

Lemma submitted_request_in_range_witness :
  reachableState sampleDates sampleDayBefore sampleDayAfter windowEntry
                 (setGuests (clickCell sampleState 2 5) (JS.toString 4))
  /\ handleReservationSubmit
       (setGuests (clickCell sampleState 2 5) (JS.toString 4))
     = Some (RequestData.mk "2025-06-22" (Some 5) (Some 4) None None)
  /\ "2025-06-22" ∈ sampleDates.
Proof.
  assert (Hreach : reachableState sampleDates sampleDayBefore sampleDayAfter
                     windowEntry
                     (setGuests (clickCell sampleState 2 5) (JS.toString 4))).
  { unfold reachableState.
    eapply rtc_l; [apply (step_initialize _ _ _ _ netBatch)|].
    eapply rtc_l; [apply (step_click _ _ _ _ _ 2%nat 5%nat)|].
    eapply rtc_l; [|apply rtc_refl].
    apply (step_guests _ _ _ _ _ 4); [by vm_compute|].
    do 3 right. left. }
  assert (Hsubmit :
            handleReservationSubmit
              (setGuests (clickCell sampleState 2 5) (JS.toString 4))
            = Some (RequestData.mk "2025-06-22" (Some 5) (Some 4) None None))
    by (by vm_compute).
  split; [exact Hreach|]. split; [exact Hsubmit|].
  apply (submitted_request_in_range sampleDates sampleDayBefore sampleDayAfter
           windowEntry _ _ Hreach Hsubmit).
Defined.

(** X20. The form does not compare the party size with the seats left:
    for an available cell and any of the six options, selecting the cell,
    choosing the option and submitting posts that party size, whatever
    seat count the cell shows. *)
Theorem partySize_not_capped (st : State.t) (dayIndex slotIndex : nat)
    (day : DaySchedule.t) (slot : TimeSlot.t) (num : Z) :
  State.schedule st !! dayIndex = Some day ->
  DaySchedule.slots day !! slotIndex = Some slot ->
  TimeSlot.available slot = true ->
  num ∈ guestOptions ->
  exists request,
    handleReservationSubmit
      (setGuests (clickCell st dayIndex slotIndex) (JS.toString num))
    = Some request
    /\ RequestData.partySize request = Some num
    /\ RequestData.date request = DaySchedule.date day.
Proof.
  intros Hday Hslot Hav Hnum.
  unfold clickCell. rewrite Hday, Hslot.
  unfold handleSlotClick. rewrite Hav.
  eexists. split; [reflexivity|]. cbn.
  split; [by apply parseInt_guestOptions | done].
Qed.

Lemma partySize_not_capped_witness :
  DaySchedule.slots sampleDay !! 5%nat
  = Some (TimeSlot.mk "19:15" true (Some 2) (Some 6))
  /\ exists request,
      handleReservationSubmit
        (setGuests (clickCell sampleState 0 5) (JS.toString 6))
      = Some request
      /\ RequestData.partySize request = Some 6.
Proof.
  assert (Hslot : DaySchedule.slots sampleDay !! 5%nat
                  = Some (TimeSlot.mk "19:15" true (Some 2) (Some 6)))
    by (by vm_compute).
  split; [exact Hslot|].
  destruct (partySize_not_capped sampleState 0 5 sampleDay
              (TimeSlot.mk "19:15" true (Some 2) (Some 6)) 6)
    as (request & Hsubmit & Hsize & _).
  - by vm_compute.
  - exact Hslot.
  - reflexivity.
  - do 5 right. left.
  - exists request. split; [exact Hsubmit | exact Hsize].
Defined.

(** * The two calendars compared *)

Lemma fetchAvailabilityWith_not_fetched (generateDateRange : list string)
    (dayBefore dayAfter : string -> string)
    (slotEntry : Z -> list SlotData.t -> SlotStatus.t)
    (net : Backend.t) (date : string) :
  date ∈ generateDateRange ->
  fetchedSlots generateDateRange dayBefore dayAfter slotEntry net date = None ->
  fetchAvailabilityWith generateDateRange dayBefore dayAfter slotEntry net
    !! date = None
  \/ fetchAvailabilityWith generateDateRange dayBefore dayAfter slotEntry net
       !! date = Some unavailableRow.
Proof.
  intros Hin. unfold fetchedSlots, fetchAvailabilityWith, fetchAvailabilityTry.
  destruct (batchAttempt dayBefore dayAfter slotEntry net generateDateRange)
    as [a|] eqn:Hbatch.
  - apply batchAttempt_Some in Hbatch as (availability & -> & Hdates).
    pose proof (batchDates_lookup _ _ _ _ _ _ _ date Hdates) as Hrow.
    rewrite decide_True in Hrow by done.
    destruct Hrow as (availableSlots & -> & _). done.
  - rewrite fallbackDates_lookup, decide_True by done.
    unfold fallbackRow. rewrite lookup_empty.
    destruct (Backend.day net date) as [|data]; [by right|].
    intros ->. by left.
Qed.

(** X21. In the calendar that looks at each slot alone, the cell of row
    [i] of a day of the schedule is of one of three kinds: available with
    no seat count (its date has no row); available with the seats and the
    capacity of an element carrying slot [i] in the slot list fetched for
    its date; or unavailable with 0 seats and capacity 6. *)
Theorem perSlot_cells (generateDateRange : list string)
    (dayBefore dayAfter : string -> string) (net : Backend.t)
    (day : DaySchedule.t) (i : nat) (slot : TimeSlot.t) :
  day ∈ PerSlot.initializeSchedule generateDateRange dayBefore dayAfter net ->
  DaySchedule.slots day !! i = Some slot ->
  (TimeSlot.available slot = true
   /\ TimeSlot.availableSeats slot = None
   /\ TimeSlot.maxCapacity slot = None)
  \/ (exists availableSlots slotData,
        fetchedSlots generateDateRange dayBefore dayAfter listedEntry net
                     (DaySchedule.date day) = Some availableSlots
        /\ slotData ∈ availableSlots
        /\ SlotData.slot slotData = Z.of_nat i
        /\ TimeSlot.available slot = true
        /\ TimeSlot.availableSeats slot
           = Some (SlotData.availableSeats slotData)
        /\ TimeSlot.maxCapacity slot = Some (SlotData.maxCapacity slotData))
  \/ (TimeSlot.available slot = false
      /\ TimeSlot.availableSeats slot = Some 0
      /\ TimeSlot.maxCapacity slot = Some 6).
Proof.
  intros Hday Hslot.
  assert (Hdate : DaySchedule.date day ∈ generateDateRange)
    by (by apply elem_of_scheduleData in Hday as [? _]).
  assert (Hclosed :
            fetchAvailabilityWith generateDateRange dayBefore dayAfter
              listedEntry net !! DaySchedule.date day = Some unavailableRow ->
            TimeSlot.available slot = false
            /\ TimeSlot.availableSeats slot = Some 0
            /\ TimeSlot.maxCapacity slot = Some 6).
  { intros Hrow. rewrite (slots_of_row _ _ _ _ Hrow Hday) in Hslot.
    by apply cellsOf_lookup in Hslot as (_ & _ & -> & -> & ->). }
  destruct (fetchedSlots generateDateRange dayBefore dayAfter listedEntry net
              (DaySchedule.date day)) as [availableSlots|] eqn:Hfetched.
  - pose proof (fetchAvailabilityWith_fetched _ _ _ _ _ _ _ Hdate Hfetched)
      as Hrow.
    destruct (findSlot availableSlots (Z.of_nat i)) as [slotData|] eqn:Hfind.
    + right. left. exists availableSlots, slotData. split; [done|].
      apply findSlot_Some in Hfind as Hfound. destruct Hfound as [Hel Hsl].
      split; [done|]. split; [done|].
      rewrite (slots_of_row _ _ _ _ Hrow Hday) in Hslot.
      apply cellsOf_lookup in Hslot as (_ & _ & -> & -> & ->).
      unfold listedEntry. by rewrite Hfind.
    + right. right.
      rewrite (slots_of_row _ _ _ _ Hrow Hday) in Hslot.
      apply cellsOf_lookup in Hslot as (_ & _ & -> & -> & ->).
      unfold listedEntry. by rewrite Hfind.
  - destruct (fetchAvailabilityWith_not_fetched _ _ _ _ _ _ Hdate Hfetched)
      as [Hrow|Hrow].
    + left. apply elem_of_scheduleData in Hday as [_ Hslots].
      rewrite Hslots, list_lookup_fmap in Hslot.
      destruct (generateTimeSlots !! i) as [t|]; [|done].
      injection Hslot as <-. by rewrite (scheduleCell_no_row _ _ _ Hrow).
    + right. right. by apply Hclosed.
Qed.

Lemma perSlot_cells_witness :
  sampleDayListed ∈ PerSlot.initializeSchedule sampleDates sampleDayBefore
                                               sampleDayAfter netListed
  /\ DaySchedule.slots sampleDayListed !! 0%nat
     = Some (TimeSlot.mk "18:00" true (Some 0) (Some 6))
  /\ exists availableSlots slotData,
      fetchedSlots sampleDates sampleDayBefore sampleDayAfter listedEntry
                   netListed "2025-06-20" = Some availableSlots
      /\ slotData ∈ availableSlots
      /\ SlotData.slot slotData = 0
      /\ SlotData.availableSeats slotData = 0.
Proof.
  assert (Hday : sampleDayListed ∈ PerSlot.initializeSchedule sampleDates
                   sampleDayBefore sampleDayAfter netListed).
  { apply list_elem_of_lookup. exists 0%nat. by vm_compute. }
  assert (Hslot : DaySchedule.slots sampleDayListed !! 0%nat
                  = Some (TimeSlot.mk "18:00" true (Some 0) (Some 6)))
    by (by vm_compute).
  split; [exact Hday|]. split; [exact Hslot|].
  destruct (perSlot_cells sampleDates sampleDayBefore sampleDayAfter netListed
              sampleDayListed 0 _ Hday Hslot)
    as [(_ & Hnone & _)
       | [(availableSlots & slotData & Hfetched & Hel & Hsl & _ & Hseats & _)
         | (Hav & _)]].
  - discriminate Hnone.
  - exists availableSlots, slotData. split; [exact Hfetched|].
    split; [exact Hel|]. split; [exact Hsl|]. by injection Hseats.
  - discriminate Hav.
Defined.

(** X22. The window rule is never more permissive than the per-slot
    rule: for a slot in [0,39], when the entry of the window rule is
    available, so is the entry of the per-slot rule, and it shows at
    least as many seats. *)
Theorem windowEntry_le_listedEntry (index : Z)
    (availableSlots : list SlotData.t) :
  0 <= index <= 39 ->
  SlotStatus.available (windowEntry index availableSlots) = true ->
  SlotStatus.available (listedEntry index availableSlots) = true
  /\ SlotStatus.availableSeats (windowEntry index availableSlots)
     <= SlotStatus.availableSeats (listedEntry index availableSlots).
Proof.
  intros Hrange Hav. cbn in Hav. apply Z.ltb_lt in Hav.
  assert (Hin : index ∈ occupiedSlots index)
    by (apply elem_of_occupiedSlots; lia).
  pose proof (proj1 (minOverSlots_positive availableSlots
                       (occupiedSlots index) 6 ltac:(lia)) Hav index Hin)
    as (seats & Hseats & Hpos).
  pose proof (minOverSlots_le_slot availableSlots (occupiedSlots index) 6
                index seats Hin Hseats ltac:(lia)) as Hle.
  unfold seatsAt in Hseats. unfold listedEntry.
  destruct (findSlot availableSlots index) as [e|]; [|done].
  injection Hseats as <-. done.
Qed.

Lemma windowEntry_le_listedEntry_witness :
  0 <= 3 <= 39
  /\ SlotStatus.availableSeats (windowEntry 3 sampleSlots) = 2
  /\ SlotStatus.availableSeats (listedEntry 3 sampleSlots) = 6.
Proof.
  split; [lia|].
  destruct (windowEntry_le_listedEntry 3 sampleSlots) as [_ Hle];
    [lia | by vm_compute |].
  split; by vm_compute.
Defined.
